(** * Body Garage user service (index.js): a shallow embedding

    The service is one Node.js file: a pooled MySQL store with one table
    [user], bcrypt for passwords, a string-keyed route table and six
    handlers.  The embedding keeps the shape of that file:

    - JavaScript values are an inductive type [JsVal], with the truthiness
      test [!v], property reads and the relational test the handlers use;
    - the store is a record [Db] and [pool.execute] is a function over it,
      one case per SQL text that occurs in the file;
    - an [async] function is a finite tree [Async] whose nodes are the
      [await]s; [try]/[catch], [process.exit] and [console] are part of it;
    - a run of a program against the world is [run]; [step] runs one
      [await], so that two requests in flight can be interleaved.

    What the platform does and the file does not say (how [JSON.parse]
    reads text, what bcrypt computes, which names the collation of the
    column identifies) is a field of the class [Platform], instantiated in
    [Module Demo] for the closed examples.  Where the platform's answer
    depends on settings outside the file (MySQL coercions of a parameter of
    the wrong type, columns that overflow) the model answers [None]: the
    run is outside the modelled fragment and no theorem speaks about it. *)

From Stdlib Require Import String Ascii List ZArith NArith Bool Lia.
Import ListNotations.

#[local] Open Scope string_scope.
#[local] Open Scope Z_scope.
#[local] Set Warnings "-register-all".

(* ================================================================== *)
(** ** JavaScript values *)

(** The values that reach the handlers: what [JSON.parse] produces, plus
    [undefined] (a property that is absent) and [Date] (what the driver
    returns for a TIMESTAMP column).  Numbers are the integer-valued ones;
    a string is a sequence of code units, one [ascii] each. *)
Inductive JsVal : Type :=
| JUndefined
| JNull
| JBool (b : bool)
| JNum (n : Z)
| JStr (s : string)
| JArr (items : list JsVal)
| JObj (props : list (string * JsVal))
| JDate (t : Z).

(** What a rejected promise or a [throw] carries. *)
Inductive JsError : Type :=
| Error (message : string)
| TypeError (message : string)
| MysqlError (code : string).

(** A promise that has settled. *)
Inductive Settled (A : Type) : Type :=
| Fulfilled (a : A)
| Rejected (e : JsError).
Arguments Fulfilled {A} a.
Arguments Rejected {A} e.

(** [!!v]: [undefined], [null], [false], [0] and the empty string are
    falsy, every other value (arrays and objects included) is truthy. *)
Definition truthy (v : JsVal) : bool :=
  match v with
  | JUndefined | JNull => false
  | JBool b => b
  | JNum n => negb (n =? 0)
  | JStr s => negb (s =? "")%string
  | JArr _ | JObj _ | JDate _ => true
  end.

Fixpoint assoc {A : Type} (k : string) (l : list (string * A)) : option A :=
  match l with
  | [] => None
  | (k', v) :: l' => if (k =? k')%string then Some v else assoc k l'
  end.

(** [v[k]] for the keys index.js reads ([name], [password], [email], [id],
    [length], [affectedRows], ...): an own property of an object, the
    [length] of a string or an array, [undefined] otherwise.  The caller
    has excluded [null] and [undefined], on which a read throws. *)
Definition get_prop (v : JsVal) (k : string) : JsVal :=
  match v with
  | JObj props => match assoc k props with Some x => x | None => JUndefined end
  | JStr s => if (k =? "length")%string then JNum (Z.of_nat (String.length s)) else JUndefined
  | JArr items => if (k =? "length")%string then JNum (Z.of_nat (List.length items)) else JUndefined
  | _ => JUndefined
  end.

(** ToNumber, as the relational operators apply it: [Some None] is NaN.
    [undefined] converts to NaN, [null] to 0, booleans to 0 and 1.  A
    string, array or object operand goes through ToPrimitive and the
    numeric-literal grammar, which is outside the modelled fragment:
    [None]. *)
Definition to_number (v : JsVal) : option (option Z) :=
  match v with
  | JUndefined => Some None
  | JNull => Some (Some 0)
  | JBool b => Some (Some (if b then 1 else 0))
  | JNum z => Some (Some z)
  | JDate t => Some (Some t)
  | JStr _ | JArr _ | JObj _ => None
  end.

(** [v < n] and [v > n] for a number [n]; a comparison with NaN is false. *)
Definition js_lt (v : JsVal) (n : Z) : option bool :=
  match to_number v with
  | Some (Some z) => Some (z <? n)
  | Some None => Some false
  | None => None
  end.

Definition js_gt (v : JsVal) (n : Z) : option bool :=
  match to_number v with
  | Some (Some z) => Some (n <? z)
  | Some None => Some false
  | None => None
  end.

(** [v === n] for a number [n]: no conversion. *)
Definition strict_eq_num (v : JsVal) (n : Z) : bool :=
  match v with
  | JNum z => z =? n
  | _ => false
  end.

(** [v[0]]. *)
Definition first_item (v : JsVal) : JsVal :=
  match v with
  | JArr (x :: _) => x
  | _ => JUndefined
  end.

(** [null] and [undefined]: the values a property read throws on. *)
Definition nullish (v : JsVal) : bool :=
  match v with
  | JUndefined | JNull => true
  | _ => false
  end.

(** Whether a string is free of spaces, as a method and a path are. *)
Fixpoint no_space (s : string) : bool :=
  match s with
  | EmptyString => true
  | String c s' => negb (c =? " ")%char && no_space s'
  end.

(** [a || b]. *)
Definition js_or (a b : JsVal) : JsVal := if truthy a then a else b.

(** Object-literal helper: [{ success: false, error: msg }] and the like. *)
Definition obj (props : list (string * JsVal)) : JsVal := JObj props.

(* ================================================================== *)
(** ** The platform *)

(** The three things index.js takes from its platform without saying what
    they compute.
    - [JSON_parse]: [JSON.parse], [None] when it throws SyntaxError.
    - [bcrypt_hashpw data rounds salt]: the hash string bcrypt computes for
      a string from freshly drawn salt; [bcrypt_checkpw data hash]: whether
      [data] hashes to [hash] under the salt [hash] embeds.
    - [name_eq]: equality of two names under the collation of the column
      [name]; it decides both [WHERE name = ?] and the UNIQUE index. *)
Class Platform : Type := {
  JSON_parse : string -> option JsVal;
  bcrypt_hashpw : string -> Z -> N -> string;
  bcrypt_checkpw : string -> string -> bool;
  name_eq : string -> string -> bool
}.

(* ================================================================== *)
(** ** The store: MySQL behind [pool] *)

(** A row of
    [user(id INT AUTO_INCREMENT PRIMARY KEY, name VARCHAR(100) NOT NULL UNIQUE,
          password VARCHAR(255) NOT NULL, email VARCHAR(100),
          created_at TIMESTAMP DEFAULT CURRENT_TIMESTAMP)]. *)
Record User : Type := {
  u_id : Z;
  u_name : string;
  u_password : string;
  u_email : option string;
  u_created_at : Z
}.

Record Table : Type := {
  rows : list User;
  auto_increment : Z
}.

(** The server as the pool sees it: whether it accepts connections,
    whether the configured account may CREATE, the table when it exists,
    and CURRENT_TIMESTAMP.  A refused connection is reported as
    ECONNREFUSED, which stands for whichever error the driver raises. *)
Record Db : Type := {
  reachable : bool;
  create_granted : bool;
  user_table : option Table;
  now : Z
}.

Definition with_table (d : Db) (t : Table) : Db :=
  {| reachable := reachable d; create_granted := create_granted d;
     user_table := Some t; now := now d |}.

(** The SQL texts of index.js, in the order they occur. *)
Inductive Sql : Type :=
| CREATE_TABLE_IF_NOT_EXISTS_user
| SELECT_id_FROM_user_WHERE_name
| INSERT_INTO_user
| SELECT_id_password_FROM_user_WHERE_name
| SELECT_id_name_email_created_at_FROM_user
| DELETE_FROM_user_WHERE_id
| UPDATE_user_SET_email_WHERE_id.

(** The text each constructor stands for (the white space of the CREATE
    statement, which spans several lines, is reduced to single spaces). *)
Definition sql_text (sql : Sql) : string :=
  match sql with
  | CREATE_TABLE_IF_NOT_EXISTS_user =>
      "CREATE TABLE IF NOT EXISTS user (id INT AUTO_INCREMENT PRIMARY KEY, name VARCHAR(100) NOT NULL UNIQUE, password VARCHAR(255) NOT NULL, email VARCHAR(100), created_at TIMESTAMP DEFAULT CURRENT_TIMESTAMP)"
  | SELECT_id_FROM_user_WHERE_name => "SELECT id FROM user WHERE name = ?"
  | INSERT_INTO_user => "INSERT INTO user (name, password, email) VALUES (?, ?, ?)"
  | SELECT_id_password_FROM_user_WHERE_name => "SELECT id, password FROM user WHERE name = ?"
  | SELECT_id_name_email_created_at_FROM_user => "SELECT id, name, email, created_at FROM user"
  | DELETE_FROM_user_WHERE_id => "DELETE FROM user WHERE id = ?"
  | UPDATE_user_SET_email_WHERE_id => "UPDATE user SET email = ? WHERE id = ?"
  end.

(** The header the driver resolves an INSERT, UPDATE or DELETE to; of its
    fields index.js reads [affectedRows] and [insertId]. *)
Definition ResultSetHeader (affectedRows insertId : Z) : JsVal :=
  obj [("affectedRows", JNum affectedRows); ("insertId", JNum insertId)].

Definition nullable (e : option string) : JsVal :=
  match e with Some s => JStr s | None => JNull end.

Definition row_id (u : User) : JsVal := obj [("id", JNum (u_id u))].

Definition row_id_password (u : User) : JsVal :=
  obj [("id", JNum (u_id u)); ("password", JStr (u_password u))].

Definition row_listed (u : User) : JsVal :=
  obj [("id", JNum (u_id u)); ("name", JStr (u_name u));
       ("email", nullable (u_email u)); ("created_at", JDate (u_created_at u))].

Definition set_email (e : string) (u : User) : User :=
  {| u_id := u_id u; u_name := u_name u; u_password := u_password u;
     u_email := Some e; u_created_at := u_created_at u |}.

(** VARCHAR(w): whether the value fits the column. *)
Definition fits (w : nat) (s : string) : bool := Nat.leb (String.length s) w.

Definition INT_MAX : Z := 2147483647.

(** Whether [email || null] is a value the column [email] takes: NULL, or
    a string that fits. *)
Definition storable_email (email : JsVal) : bool :=
  match js_or email JNull with
  | JNull => true
  | JStr s => fits 100 s
  | _ => false
  end.

(** The value the column gets. *)
Definition stored_email (email : JsVal) : option string :=
  match js_or email JNull with
  | JStr s => Some s
  | _ => None
  end.

Definition has_id (z : Z) (u : User) : bool := u_id u =? z.

Section Store.
Context {P : Platform}.

Definition has_name (n : string) (u : User) : bool := name_eq (u_name u) n.

(** One statement against an existing table.  [None]: the parameters are
    not of the column's type or do not fit it, and what the server does
    then depends on its sql_mode and coercion rules.
    - A SELECT returns the matching rows as objects.
    - INSERT rejects with ER_DUP_ENTRY when the UNIQUE index on [name]
      holds the name; the AUTO_INCREMENT value drawn for the statement is
      spent either way (InnoDB).  Otherwise the row gets the counter as
      its id and the header carries it as [insertId].
    - DELETE and UPDATE report the rows the WHERE clause matched (the
      driver connects with FOUND_ROWS). *)
Definition execute_on (t : Table) (clock : Z) (sql : Sql) (params : list JsVal)
  : option (Settled JsVal * Table) :=
  match sql, params with
  | SELECT_id_FROM_user_WHERE_name, [JStr n] =>
      Some (Fulfilled (JArr (map row_id (filter (has_name n) (rows t)))), t)
  | SELECT_id_password_FROM_user_WHERE_name, [JStr n] =>
      Some (Fulfilled (JArr (map row_id_password (filter (has_name n) (rows t)))), t)
  | SELECT_id_name_email_created_at_FROM_user, [] =>
      Some (Fulfilled (JArr (map row_listed (rows t))), t)
  | INSERT_INTO_user, [JStr n; JStr h; e] =>
      let email :=
        match e with
        | JNull => Some None
        | JStr s => if fits 100 s then Some (Some s) else None
        | _ => None
        end in
      match email with
      | None => None
      | Some em =>
          if negb (fits 100 n && fits 255 h) then None
          else if INT_MAX <? auto_increment t then None
          else if existsb (has_name n) (rows t) then
            Some (Rejected (MysqlError "ER_DUP_ENTRY"),
                  {| rows := rows t; auto_increment := auto_increment t + 1 |})
          else
            let u := {| u_id := auto_increment t; u_name := n; u_password := h;
                        u_email := em; u_created_at := clock |} in
            Some (Fulfilled (ResultSetHeader 1 (auto_increment t)),
                  {| rows := rows t ++ [u]; auto_increment := auto_increment t + 1 |})
      end
  | DELETE_FROM_user_WHERE_id, [JNum z] =>
      Some (Fulfilled (ResultSetHeader (Z.of_nat (List.length (filter (has_id z) (rows t)))) 0),
            {| rows := filter (fun u => negb (has_id z u)) (rows t);
               auto_increment := auto_increment t |})
  | UPDATE_user_SET_email_WHERE_id, [JStr e; JNum z] =>
      if negb (fits 100 e) then None
      else
        Some (Fulfilled (ResultSetHeader (Z.of_nat (List.length (filter (has_id z) (rows t)))) 0),
              {| rows := map (fun u => if has_id z u then set_email e u else u) (rows t);
                 auto_increment := auto_increment t |})
  | _, _ => None
  end.

(** [pool.execute(sql, params)]: the promise rejects when no connection
    can be had, when CREATE is denied, or when the table is missing;
    CREATE TABLE IF NOT EXISTS makes an empty table when there is none. *)
Definition pool_execute (sql : Sql) (params : list JsVal) (d : Db)
  : option (Settled JsVal * Db) :=
  if negb (reachable d) then Some (Rejected (MysqlError "ECONNREFUSED"), d)
  else
    match sql, user_table d with
    | CREATE_TABLE_IF_NOT_EXISTS_user, _ =>
        if negb (create_granted d) then
          Some (Rejected (MysqlError "ER_TABLEACCESS_DENIED_ERROR"), d)
        else
          match params, user_table d with
          | [], Some t => Some (Fulfilled (ResultSetHeader 0 0), d)
          | [], None =>
              Some (Fulfilled (ResultSetHeader 0 0),
                    with_table d {| rows := []; auto_increment := 1 |})
          | _, _ => None
          end
    | _, None => Some (Rejected (MysqlError "ER_NO_SUCH_TABLE"), d)
    | _, Some t =>
        match execute_on t (now d) sql params with
        | Some (r, t') => Some (r, with_table d t')
        | None => None
        end
    end.

(** [pool.getConnection()]. *)
Definition pool_getConnection (d : Db) : Settled unit :=
  if reachable d then Fulfilled tt else Rejected (MysqlError "ECONNREFUSED").

End Store.

(* ================================================================== *)
(** ** Async functions *)

(** A line on the console.  A template literal is kept as its pieces;
    [Stderr text e] is [console.error(text, e)] (or [e.message]). *)
Inductive LogLine : Type :=
| Stdout (pieces : list JsVal)
| Stderr (text : string) (e : JsError).

(** The body of an [async] function up to its next [await]: it has
    returned, thrown, ended the process, left the modelled fragment, or
    waits for a promise and goes on with what the promise settles to.
    Writing to the console and opening the listening socket are kept as
    nodes too, so that a run records them in order. *)
Inductive Async (A : Type) : Type :=
| Resolve (a : A)
| Throw (e : JsError)
| ProcessExit (code : Z)
| OutOfModel
| AwaitExecute (sql : Sql) (params : list JsVal) (k : Settled JsVal -> Async A)
| AwaitGetConnection (k : Settled unit -> Async A)
| AwaitHash (data : JsVal) (rounds : Z) (k : Settled string -> Async A)
| Console (line : LogLine) (k : Async A)
| ServerListen (port : JsVal) (k : Async A).
Arguments Resolve {A} a.
Arguments Throw {A} e.
Arguments ProcessExit {A} code.
Arguments OutOfModel {A}.
Arguments AwaitExecute {A} sql params k.
Arguments AwaitGetConnection {A} k.
Arguments AwaitHash {A} data rounds k.
Arguments Console {A} line k.
Arguments ServerListen {A} port k.

(** Sequencing: the statements after an [await] (or any call). *)
Fixpoint bind {A B : Type} (m : Async A) (f : A -> Async B) : Async B :=
  match m with
  | Resolve a => f a
  | Throw e => Throw e
  | ProcessExit c => ProcessExit c
  | OutOfModel => OutOfModel
  | AwaitExecute sql ps k => AwaitExecute sql ps (fun r => bind (k r) f)
  | AwaitGetConnection k => AwaitGetConnection (fun r => bind (k r) f)
  | AwaitHash d n k => AwaitHash d n (fun r => bind (k r) f)
  | Console l k => Console l (bind k f)
  | ServerListen p k => ServerListen p (bind k f)
  end.

(** [try { m } catch (err) { h err }]. *)
Fixpoint try_catch {A : Type} (m : Async A) (h : JsError -> Async A) : Async A :=
  match m with
  | Resolve a => Resolve a
  | Throw e => h e
  | ProcessExit c => ProcessExit c
  | OutOfModel => OutOfModel
  | AwaitExecute sql ps k => AwaitExecute sql ps (fun r => try_catch (k r) h)
  | AwaitGetConnection k => AwaitGetConnection (fun r => try_catch (k r) h)
  | AwaitHash d n k => AwaitHash d n (fun r => try_catch (k r) h)
  | Console l k => Console l (try_catch k h)
  | ServerListen p k => ServerListen p (try_catch k h)
  end.

Declare Scope async_scope.
Delimit Scope async_scope with async.
Notation "x <- m ;; k" := (bind m (fun x => k))
  (at level 61, m at next level, right associativity) : async_scope.
Notation "m ;;; k" := (bind m (fun _ => k))
  (at level 61, right associativity) : async_scope.
#[local] Open Scope async_scope.

(** [await p] for a promise that has settled: its value, or a throw. *)
Definition await {A : Type} (p : Settled A) : Async A :=
  match p with
  | Fulfilled a => Resolve a
  | Rejected e => Throw e
  end.

(** [const [x] = await pool.execute(sql, params)]: the first component of
    the pair the driver resolves to (the rows of a SELECT, the header of
    the other statements). *)
Definition execute (sql : Sql) (params : list JsVal) : Async JsVal :=
  AwaitExecute sql params await.

Definition getConnection : Async unit := AwaitGetConnection await.

Definition hash (data : JsVal) (rounds : Z) : Async string :=
  AwaitHash data rounds await.

Definition console_log (pieces : list JsVal) : Async unit :=
  Console (Stdout pieces) (Resolve tt).

Definition console_error (text : string) (e : JsError) : Async unit :=
  Console (Stderr text e) (Resolve tt).

(** A JavaScript operation whose result the model may not give. *)
Definition modelled {A : Type} (o : option A) : Async A :=
  match o with
  | Some a => Resolve a
  | None => OutOfModel
  end.

(** [const { a, b } = v]: throws on [null] and [undefined]. *)
Definition destructure (v : JsVal) : Async JsVal :=
  match v with
  | JUndefined => Throw (TypeError "Cannot destructure 'undefined' as it is undefined.")
  | JNull => Throw (TypeError "Cannot destructure 'null' as it is null.")
  | _ => Resolve v
  end.

(* ================================================================== *)
(** ** The world and runs *)

(** What a run reads and writes: the store, the entropy bcrypt draws its
    salt from, the console, and the port once the server listens. *)
Record World : Type := {
  db : Db;
  entropy : N;
  console : list LogLine;
  listening : option JsVal
}.

Definition set_db (w : World) (d : Db) : World :=
  {| db := d; entropy := entropy w; console := console w; listening := listening w |}.

Definition draw (w : World) : World :=
  {| db := db w; entropy := N.succ (entropy w); console := console w;
     listening := listening w |}.

Definition print (w : World) (l : LogLine) : World :=
  {| db := db w; entropy := entropy w; console := console w ++ [l];
     listening := listening w |}.

Definition listen (w : World) (port : JsVal) : World :=
  {| db := db w; entropy := entropy w; console := console w; listening := Some port |}.

(** How a run of an async function ends. *)
Inductive Outcome (A : Type) : Type :=
| Returned (a : A)
| Thrown (e : JsError)
| Exited (code : Z).
Arguments Returned {A} a.
Arguments Thrown {A} e.
Arguments Exited {A} code.

Section Runs.
Context {P : Platform}.

(** [bcrypt.hash(data, rounds)]: the wrapper rejects [null] and
    [undefined] ('data and salt arguments required') and what is not a
    string ('data must be a string or Buffer ...') before any salt is
    drawn. *)
Definition bcrypt_hash (data : JsVal) (rounds : Z) (salt : N) : Settled string :=
  match data with
  | JStr s => Fulfilled (bcrypt_hashpw s rounds salt)
  | JUndefined | JNull => Rejected (Error "data and salt arguments required")
  | _ => Rejected (Error "data must be a string or Buffer and salt must either be a salt string or a number of rounds")
  end.

(** [bcrypt.compare(data, hash)]: the wrapper rejects with 'data and hash
    arguments required' when either is [null] or [undefined], and with
    'data and hash must be strings' when [data] is not a string (or a
    Buffer, which JSON cannot carry) or [hash] is not a string; only then
    is the hash recomputed and compared. *)
Definition bcrypt_compare (data hashed : JsVal) : Settled bool :=
  match data, hashed with
  | JUndefined, _ | JNull, _ | _, JUndefined | _, JNull =>
      Rejected (Error "data and hash arguments required")
  | JStr d, JStr h => Fulfilled (bcrypt_checkpw d h)
  | _, _ => Rejected (Error "data and hash must be strings")
  end.

(** The synchronous statements at the head of a program: console lines
    and the call of [server.listen] run without giving way. *)
Fixpoint sync {A : Type} (m : Async A) (w : World) : Async A * World :=
  match m with
  | Console l k => sync k (print w l)
  | ServerListen p k => sync k (listen w p)
  | _ => (m, w)
  end.

(** One turn of a program: the promise it awaits settles and the program
    runs on to its next [await] or to its end.  A program that has ended
    stays as it is.  (Awaiting [parseBody] or [bcrypt.compare] neither
    reads nor writes the world, so those suspensions are not turns of
    their own.) *)
Definition step {A : Type} (m : Async A) (w : World) : option (Async A * World) :=
  match m with
  | Resolve _ | Throw _ | ProcessExit _ => Some (m, w)
  | OutOfModel => None
  | AwaitExecute sql ps k =>
      match pool_execute sql ps (db w) with
      | Some (r, d) => Some (sync (k r) (set_db w d))
      | None => None
      end
  | AwaitGetConnection k => Some (sync (k (pool_getConnection (db w))) w)
  | AwaitHash d n k =>
      match bcrypt_hash d n (entropy w) with
      | Fulfilled h => Some (sync (k (Fulfilled h)) (draw w))
      | Rejected e => Some (sync (k (Rejected e)) w)
      end
  | Console _ _ | ServerListen _ _ => Some (sync m w)
  end.

(** A program run to its end with nothing else in flight. *)
Fixpoint run {A : Type} (m : Async A) (w : World) : option (Outcome A * World) :=
  match m with
  | Resolve a => Some (Returned a, w)
  | Throw e => Some (Thrown e, w)
  | ProcessExit c => Some (Exited c, w)
  | OutOfModel => None
  | AwaitExecute sql ps k =>
      match pool_execute sql ps (db w) with
      | Some (r, d) => run (k r) (set_db w d)
      | None => None
      end
  | AwaitGetConnection k => run (k (pool_getConnection (db w))) w
  | AwaitHash d n k =>
      match bcrypt_hash d n (entropy w) with
      | Fulfilled h => run (k (Fulfilled h)) (draw w)
      | Rejected e => run (k (Rejected e)) w
      end
  | Console l k => run k (print w l)
  | ServerListen p k => run k (listen w p)
  end.

Fixpoint replace_nth {A : Type} (i : nat) (x : A) (l : list A) : list A :=
  match l, i with
  | [], _ => []
  | _ :: l', O => x :: l'
  | y :: l', S i' => y :: replace_nth i' x l'
  end.

(** Requests in flight, interleaved at their [await]s: each entry of the
    schedule names the program that takes the next turn. *)
Fixpoint interleave {A : Type} (schedule : list nat) (ps : list (Async A)) (w : World)
  : option (list (Async A) * World) :=
  match schedule with
  | [] => Some (ps, w)
  | i :: schedule' =>
      match nth_error ps i with
      | None => None
      | Some m =>
          match step m w with
          | None => None
          | Some (m', w') => interleave schedule' (replace_nth i m' ps) w'
          end
      end
  end.

End Runs.

(* ================================================================== *)
(** ** HTTP *)

(** The body of an incoming request as its stream delivers it: the text
    of all chunks at ['end'], or an ['error']. *)
Inductive Incoming : Type :=
| Ended (body : string)
| Errored (e : JsError).

(** [req]: [req.method], the pathname [url.parse(req.url, true)] finds in
    [req.url], and the body stream. *)
Record Request : Type := {
  method : string;
  pathname : string;
  incoming : Incoming
}.

(** A POST request whose body arrived whole. *)
Definition post (path body : string) : Request :=
  {| method := "POST"; pathname := path; incoming := Ended body |}.

(** What [res.end] is given: [JSON.stringify(data)] or [data] as it is. *)
Inductive Payload : Type :=
| Stringified (data : JsVal)
| Verbatim (data : JsVal).

(** What has been written on [res]. *)
Record Response : Type := {
  statusCode : Z;
  headers : list (string * string);
  payload : Payload
}.

(** [sendResponse(res, statusCode, data, contentType)]. *)
Definition sendResponse (statusCode : Z) (data : JsVal) (contentType : string) : Response :=
  {| statusCode := statusCode;
     headers := [("Content-Type", contentType);
                 ("Access-Control-Allow-Origin", "*");
                 ("Access-Control-Allow-Methods", "GET, POST, PUT, DELETE, OPTIONS");
                 ("Access-Control-Allow-Headers", "Content-Type, Authorization")];
     payload := if (contentType =? "application/json")%string
                then Stringified data else Verbatim data |}.

(** [sendResponse(res, statusCode, data)], the content type defaulted. *)
Definition sendJson (statusCode : Z) (data : JsVal) : Response :=
  sendResponse statusCode data "application/json".

Definition failure (error : string) : JsVal :=
  obj [("success", JBool false); ("error", JStr error)].

Definition landing_html : string :=
  "
      <html>
        <head><title>Body Garage</title></head>
        <body>
          <h1>🏋️ Welcome to Body Garage Server</h1>
          <p>Use Postman or frontend to access API routes.</p>
        </body>
      </html>
    ".

(* ================================================================== *)
(** ** index.js *)

Section Index.
Context {P : Platform}.

(** [testConnection]. *)
Definition testConnection : Async unit :=
  try_catch
    (getConnection ;;;
     console_log [JStr "✅ Connected to MySQL Database"])
    (fun err =>
       console_error "❌ MySQL connection failed:" err ;;;
       ProcessExit 1).

(** [initDatabase]. *)
Definition initDatabase : Async unit :=
  try_catch
    (execute CREATE_TABLE_IF_NOT_EXISTS_user [] ;;;
     console_log [JStr "✅ Database tables initialized"])
    (fun err =>
       console_error "❌ Database initialization failed:" err).

(** [parseBody(req)]: the promise the handlers await. *)
Definition parseBody (req : Request) : Settled JsVal :=
  match incoming req with
  | Ended body =>
      match JSON_parse body with
      | Some v => Fulfilled v
      | None => Rejected (Error "Invalid JSON")
      end
  | Errored e => Rejected e
  end.

(** [routes['OPTIONS *']]. *)
Definition OPTIONS_any (req : Request) : Async Response :=
  Resolve (sendResponse 200 (JStr "") "text/plain").

(** [routes['POST /register']]. *)
Definition POST_register (req : Request) : Async Response :=
  try_catch
    (body <- await (parseBody req) ;;
     fields <- destructure body ;;
     let name := get_prop fields "name" in
     let password := get_prop fields "password" in
     let email := get_prop fields "email" in
     if negb (truthy name) || negb (truthy password) then
       Resolve (sendJson 400 (failure "Name and password required"))
     else
       short <- modelled (js_lt (get_prop password "length") 6) ;;
       if (short : bool) then
         Resolve (sendJson 400 (failure "Password must be at least 6 characters"))
       else
         existing <- execute SELECT_id_FROM_user_WHERE_name [name] ;;
         taken <- modelled (js_gt (get_prop existing "length") 0) ;;
         if (taken : bool) then
           Resolve (sendJson 409 (failure "Username already exists"))
         else
           hashedPassword <- hash password 12 ;;
           result <- execute INSERT_INTO_user
                       [name; JStr hashedPassword; js_or email JNull] ;;
           Resolve (sendJson 201
                      (obj [("success", JBool true);
                            ("message", JStr "Account created");
                            ("userId", get_prop result "insertId")])))
    (fun err =>
       console_error "Register error:" err ;;;
       Resolve (sendJson 500 (failure "Internal server error"))).

(** [routes['POST /login']]. *)
Definition POST_login (req : Request) : Async Response :=
  try_catch
    (body <- await (parseBody req) ;;
     fields <- destructure body ;;
     let name := get_prop fields "name" in
     let password := get_prop fields "password" in
     if negb (truthy name) || negb (truthy password) then
       Resolve (sendJson 400 (failure "Name and password required"))
     else
       users <- execute SELECT_id_password_FROM_user_WHERE_name [name] ;;
       if strict_eq_num (get_prop users "length") 0 then
         Resolve (sendJson 401 (failure "Invalid credentials"))
       else
         let user := first_item users in
         matched <- await (bcrypt_compare password (get_prop user "password")) ;;
         if negb matched then
           Resolve (sendJson 401 (failure "Invalid credentials"))
         else
           Resolve (sendJson 200
                      (obj [("success", JBool true);
                            ("message", JStr "Login successful");
                            ("userId", get_prop user "id")])))
    (fun err =>
       console_error "Login error:" err ;;;
       Resolve (sendJson 500 (failure "Internal server error"))).

(** [routes['GET /users']]. *)
Definition GET_users (req : Request) : Async Response :=
  try_catch
    (users <- execute SELECT_id_name_email_created_at_FROM_user [] ;;
     Resolve (sendJson 200 (obj [("success", JBool true); ("users", users)])))
    (fun err =>
       console_error "Fetch users error:" err ;;;
       Resolve (sendJson 500 (failure "Internal server error"))).

(** [routes['DELETE /user']]. *)
Definition DELETE_user (req : Request) : Async Response :=
  try_catch
    (body <- await (parseBody req) ;;
     fields <- destructure body ;;
     let id := get_prop fields "id" in
     if negb (truthy id) then
       Resolve (sendJson 400 (failure "User ID required"))
     else
       result <- execute DELETE_FROM_user_WHERE_id [id] ;;
       if strict_eq_num (get_prop result "affectedRows") 0 then
         Resolve (sendJson 404 (failure "User not found"))
       else
         Resolve (sendJson 200
                    (obj [("success", JBool true); ("message", JStr "User deleted")])))
    (fun err =>
       console_error "Delete error:" err ;;;
       Resolve (sendJson 500 (failure "Internal server error"))).

(** [routes['PUT /user']]. *)
Definition PUT_user (req : Request) : Async Response :=
  try_catch
    (body <- await (parseBody req) ;;
     fields <- destructure body ;;
     let id := get_prop fields "id" in
     let email := get_prop fields "email" in
     if negb (truthy id) || negb (truthy email) then
       Resolve (sendJson 400 (failure "ID and new email required"))
     else
       result <- execute UPDATE_user_SET_email_WHERE_id [email; id] ;;
       if strict_eq_num (get_prop result "affectedRows") 0 then
         Resolve (sendJson 404 (failure "User not found"))
       else
         Resolve (sendJson 200
                    (obj [("success", JBool true); ("message", JStr "Email updated")])))
    (fun err =>
       console_error "Update error:" err ;;;
       Resolve (sendJson 500 (failure "Internal server error"))).

(** [routes['GET /']]. *)
Definition GET_root (req : Request) : Async Response :=
  Resolve (sendResponse 200 (JStr landing_html) "text/html").

(** [routes]: the object literal, key by key.  Every key holds a space,
    which no property inherited from [Object.prototype] does, so a read
    of [routes] finds own properties only. *)
Definition routes : list (string * (Request -> Async Response)) :=
  [("OPTIONS *", OPTIONS_any);
   ("POST /register", POST_register);
   ("POST /login", POST_login);
   ("GET /users", GET_users);
   ("DELETE /user", DELETE_user);
   ("PUT /user", PUT_user);
   ("GET /", GET_root)].

(** The method and path of each key of [routes]. *)
Definition registered : list (string * string) :=
  [("OPTIONS", "*"); ("POST", "/register"); ("POST", "/login"); ("GET", "/users");
   ("DELETE", "/user"); ("PUT", "/user"); ("GET", "/")].

Definition routeKey (req : Request) : string :=
  method req ++ " " ++ pathname req.

(** The callback of [http.createServer]:
    [routes[routeKey] || routes[`${method} *`] || routes['GET /']],
    then [handler(req, res)]. *)
Definition server (req : Request) : Async Response :=
  match assoc (routeKey req) routes with
  | Some handler => handler req
  | None =>
      match assoc (method req ++ " *") routes with
      | Some handler => handler req
      | None =>
          match assoc "GET /" routes with
          | Some handler => handler req
          | None => Throw (TypeError "handler is not a function")
          end
      end
  end.

(** The statements of POST /register from the duplicate check on, with
    the [catch] block around them. *)
Definition register_checked (name password email : JsVal) : Async Response :=
  try_catch
    (existing <- execute SELECT_id_FROM_user_WHERE_name [name] ;;
     taken <- modelled (js_gt (get_prop existing "length") 0) ;;
     if (taken : bool) then
       Resolve (sendJson 409 (failure "Username already exists"))
     else
       hashedPassword <- hash password 12 ;;
       result <- execute INSERT_INTO_user
                   [name; JStr hashedPassword; js_or email JNull] ;;
       Resolve (sendJson 201
                  (obj [("success", JBool true);
                        ("message", JStr "Account created");
                        ("userId", get_prop result "insertId")])))
    (fun err =>
       console_error "Register error:" err ;;;
       Resolve (sendJson 500 (failure "Internal server error"))).

(** The statements of POST /login from the lookup on, with the [catch]
    block around them. *)
Definition login_checked (name password : JsVal) : Async Response :=
  try_catch
    (users <- execute SELECT_id_password_FROM_user_WHERE_name [name] ;;
     if strict_eq_num (get_prop users "length") 0 then
       Resolve (sendJson 401 (failure "Invalid credentials"))
     else
       let user := first_item users in
       matched <- await (bcrypt_compare password (get_prop user "password")) ;;
       if negb matched then
         Resolve (sendJson 401 (failure "Invalid credentials"))
       else
         Resolve (sendJson 200
                    (obj [("success", JBool true);
                          ("message", JStr "Login successful");
                          ("userId", get_prop user "id")])))
    (fun err =>
       console_error "Login error:" err ;;;
       Resolve (sendJson 500 (failure "Internal server error"))).

(** The answers of a registration and of a login that succeed. *)
Definition created (id : Z) : Response :=
  sendJson 201 (obj [("success", JBool true); ("message", JStr "Account created");
                     ("userId", JNum id)]).

Definition logged_in (id : Z) : Response :=
  sendJson 200 (obj [("success", JBool true); ("message", JStr "Login successful");
                     ("userId", JNum id)]).

(** The row INSERT adds to table [t] at time [clock]. *)
Definition new_user (t : Table) (clock : Z) (n hashed : string) (email : JsVal) : User :=
  {| u_id := auto_increment t; u_name := n; u_password := hashed;
     u_email := stored_email email; u_created_at := clock |}.

(** The answer of every [catch] block. *)
Definition internal_server_error : Response :=
  sendJson 500 (failure "Internal server error").

(** [process.env.PORT || 8000]. *)
Definition PORT (env_PORT : JsVal) : JsVal := js_or env_PORT (JNum 8000).

(** The start of the process: the async function at the end of the file. *)
Definition main (env_PORT : JsVal) : Async unit :=
  testConnection ;;;
  initDatabase ;;;
  ServerListen (PORT env_PORT)
    (console_log [JStr "🚀 Server running on port "; PORT env_PORT]).

(** The three lines a start that gets through writes to the console. *)
Definition connected : LogLine := Stdout [JStr "✅ Connected to MySQL Database"].
Definition initialized : LogLine := Stdout [JStr "✅ Database tables initialized"].
Definition running (env_PORT : JsVal) : LogLine :=
  Stdout [JStr "🚀 Server running on port "; PORT env_PORT].

End Index.

(* ================================================================== *)
(** ** A concrete platform for closed examples *)

Module Demo.

(** The double quote. *)
Definition dquote : ascii := "034"%char.

(** Bodies are written with apostrophes and read with double quotes. *)
Fixpoint quoted (s : string) : string :=
  match s with
  | EmptyString => EmptyString
  | String c s' => String (if (c =? "'")%char then dquote else c) (quoted s')
  end.

Definition is_ws (c : ascii) : bool :=
  (c =? " ")%char || (c =? "009")%char || (c =? "010")%char || (c =? "013")%char.

Fixpoint skip_ws (s : string) : string :=
  match s with
  | String c s' => if is_ws c then skip_ws s' else s
  | EmptyString => s
  end.

Definition digit (c : ascii) : option Z :=
  let n := Z.of_nat (nat_of_ascii c) in
  if (48 <=? n) && (n <=? 57) then Some (n - 48) else None.

Fixpoint digits (s : string) (acc : Z) : Z * string :=
  match s with
  | String c s' =>
      match digit c with
      | Some d => digits s' (10 * acc + d)
      | None => (acc, s)
      end
  | EmptyString => (acc, s)
  end.

(** A number literal without fraction and exponent: an optional minus,
    then 0 or a digit string that does not start with 0.  A literal with
    a fraction or an exponent is not read by this parser. *)
Definition number (s : string) : option (Z * string) :=
  let (sign, s1) :=
    match s with
    | String "-" s' => (-1, s')
    | _ => (1, s)
    end in
  match s1 with
  | String c s2 =>
      match digit c with
      | None => None
      | Some d =>
          let (n, rest) := if d =? 0 then (0, s2) else digits s2 d in
          match rest with
          | String r _ =>
              if (r =? ".")%char || (r =? "e")%char || (r =? "E")%char then None
              else match digit r with
                   | Some _ => None
                   | None => Some (sign * n, rest)
                   end
          | EmptyString => Some (sign * n, rest)
          end
      end
  | EmptyString => None
  end.

(** The characters of a string literal after its opening quote, up to
    the closing one; the two-character escapes are read, [\u] is not. *)
Fixpoint chars (s : string) : option (string * string) :=
  match s with
  | EmptyString => None
  | String c s' =>
      if (c =? dquote)%char then Some (EmptyString, s')
      else if (nat_of_ascii c <? 32)%nat then None
      else if (c =? "\")%char then
        match s' with
        | String e s'' =>
            let unescaped :=
              if (e =? dquote)%char then Some dquote
              else if (e =? "\")%char then Some "\"%char
              else if (e =? "/")%char then Some "/"%char
              else if (e =? "b")%char then Some "008"%char
              else if (e =? "f")%char then Some "012"%char
              else if (e =? "n")%char then Some "010"%char
              else if (e =? "r")%char then Some "013"%char
              else if (e =? "t")%char then Some "009"%char
              else None in
            match unescaped, chars s'' with
            | Some u, Some (str, rest) => Some (String u str, rest)
            | _, _ => None
            end
        | EmptyString => None
        end
      else
        match chars s' with
        | Some (str, rest) => Some (String c str, rest)
        | None => None
        end
  end.

(** [o[k] = v] on an object under construction: a repeated key keeps its
    place and takes the later value. *)
Fixpoint set_prop (k : string) (v : JsVal) (props : list (string * JsVal))
  : list (string * JsVal) :=
  match props with
  | [] => [(k, v)]
  | (k', v') :: props' =>
      if (k =? k')%string then (k, v) :: props' else (k', v') :: set_prop k v props'
  end.

Definition literal (word : string) (v : JsVal) (s : string) : option (JsVal * string) :=
  if String.prefix word s
  then Some (v, substring (String.length word) (String.length s - String.length word) s)
  else None.

(** A JSON value at the head of [s] (leading white space skipped), and the
    text after it.  [fuel] bounds the nesting and the number of items. *)
Fixpoint value (fuel : nat) (s : string) : option (JsVal * string) :=
  match fuel with
  | O => None
  | S fuel' =>
      match skip_ws s with
      | String "{" s1 =>
          match skip_ws s1 with
          | String "}" rest => Some (JObj [], rest)
          | _ => members fuel' s1 []
          end
      | String "[" s1 =>
          match skip_ws s1 with
          | String "]" rest => Some (JArr [], rest)
          | _ => elements fuel' s1 []
          end
      | String "n" _ as s0 => literal "null" JNull s0
      | String "t" _ as s0 => literal "true" (JBool true) s0
      | String "f" _ as s0 => literal "false" (JBool false) s0
      | String c s1 as s0 =>
          if (c =? dquote)%char then
            match chars s1 with
            | Some (str, rest) => Some (JStr str, rest)
            | None => None
            end
          else
            match number s0 with
            | Some (n, rest) => Some (JNum n, rest)
            | None => None
            end
      | EmptyString => None
      end
  end
with elements (fuel : nat) (s : string) (acc : list JsVal) : option (JsVal * string) :=
  match fuel with
  | O => None
  | S fuel' =>
      match value fuel' s with
      | Some (v, rest) =>
          match skip_ws rest with
          | String "," rest' => elements fuel' rest' (acc ++ [v])
          | String "]" rest' => Some (JArr (acc ++ [v]), rest')
          | _ => None
          end
      | None => None
      end
  end
with members (fuel : nat) (s : string) (acc : list (string * JsVal))
  : option (JsVal * string) :=
  match fuel with
  | O => None
  | S fuel' =>
      match skip_ws s with
      | String c s1 =>
          if (c =? dquote)%char then
            match chars s1 with
            | Some (k, rest) =>
                match skip_ws rest with
                | String ":" rest1 =>
                    match value fuel' rest1 with
                    | Some (v, rest2) =>
                        match skip_ws rest2 with
                        | String "," rest3 => members fuel' rest3 (set_prop k v acc)
                        | String "}" rest3 => Some (JObj (set_prop k v acc), rest3)
                        | _ => None
                        end
                    | None => None
                    end
                | _ => None
                end
            | None => None
            end
          else None
      | EmptyString => None
      end
  end.

(** [JSON.parse] on texts whose numbers are integer literals and whose
    strings have no [\u] escape. *)
Definition json_parse (text : string) : option JsVal :=
  match value (S (String.length text)) text with
  | Some (v, rest) =>
      match skip_ws rest with
      | EmptyString => Some v
      | _ => None
      end
  | None => None
  end.

(** A stand-in for bcrypt that keeps salt and data readable:
    [$<salt>$<data>].  A string verifies against the hashes made from it
    and against no other. *)
Definition toy_hashpw (data : string) (rounds : Z) (salt : N) : string :=
  "$" ++ String.concat "" (repeat "s" (N.to_nat salt)) ++ "$" ++ data.

Fixpoint after_salt (s : string) : string :=
  match s with
  | String "$" rest => rest
  | String _ rest => after_salt rest
  | EmptyString => EmptyString
  end.

Definition toy_checkpw (data hashed : string) : bool :=
  match hashed with
  | String "$" rest => (after_salt rest =? data)%string
  | _ => false
  end.

#[export] Instance platform : Platform := {|
  JSON_parse := json_parse;
  bcrypt_hashpw := toy_hashpw;
  bcrypt_checkpw := toy_checkpw;
  name_eq := String.eqb
|}.

(** A server that is up, with the table as [initDatabase] creates it. *)
Definition fresh : World :=
  {| db := {| reachable := true; create_granted := true;
              user_table := Some {| rows := []; auto_increment := 1 |};
              now := 1700000000 |};
     entropy := 3; console := []; listening := Some (JNum 8000) |}.

(** The same server after [alice] has registered with [secret1]. *)
Definition alice : User :=
  {| u_id := 1; u_name := "alice"; u_password := "$sss$secret1";
     u_email := None; u_created_at := 1700000000 |}.

Definition with_alice : World :=
  {| db := {| reachable := true; create_granted := true;
              user_table := Some {| rows := [alice]; auto_increment := 2 |};
              now := 1700000000 |};
     entropy := 4; console := []; listening := Some (JNum 8000) |}.

(** A server that accepts connections, where the account may not CREATE
    and the table has not been made. *)
Definition no_schema : World :=
  {| db := {| reachable := true; create_granted := false;
              user_table := None; now := 1700000000 |};
     entropy := 3; console := []; listening := None |}.

Definition request (m p body : string) : Request :=
  {| method := m; pathname := p; incoming := Ended (quoted body) |}.

End Demo.

(* ================================================================== *)
(** ** Shapes of programs and of the table *)

(** Every way the program can end: it returns a value that satisfies [Q],
    or, when [throws] is set, it throws; it never ends the process. *)
Inductive ends {A : Type} (Q : A -> Prop) (throws : bool) : Async A -> Prop :=
| ends_resolve (a : A) : Q a -> ends Q throws (Resolve a)
| ends_throw (e : JsError) : throws = true -> ends Q throws (Throw e)
| ends_out : ends Q throws OutOfModel
| ends_execute (sql : Sql) (ps : list JsVal) (k : Settled JsVal -> Async A) :
    (forall r, ends Q throws (k r)) -> ends Q throws (AwaitExecute sql ps k)
| ends_connection (k : Settled unit -> Async A) :
    (forall r, ends Q throws (k r)) -> ends Q throws (AwaitGetConnection k)
| ends_hash (d : JsVal) (n : Z) (k : Settled string -> Async A) :
    (forall r, ends Q throws (k r)) -> ends Q throws (AwaitHash d n k)
| ends_console (l : LogLine) (k : Async A) :
    ends Q throws k -> ends Q throws (Console l k)
| ends_listen (p : JsVal) (k : Async A) :
    ends Q throws k -> ends Q throws (ServerListen p k).

(** The statements that only read the table. *)
Definition is_select (sql : Sql) : bool :=
  match sql with
  | SELECT_id_FROM_user_WHERE_name
  | SELECT_id_password_FROM_user_WHERE_name
  | SELECT_id_name_email_created_at_FROM_user => true
  | _ => false
  end.

(** A program whose only effects are SELECT statements and console
    lines. *)
Inductive reads_only {A : Type} : Async A -> Prop :=
| ro_resolve (a : A) : reads_only (Resolve a)
| ro_throw (e : JsError) : reads_only (Throw e)
| ro_out : reads_only OutOfModel
| ro_execute (sql : Sql) (ps : list JsVal) (k : Settled JsVal -> Async A) :
    is_select sql = true -> (forall r, reads_only (k r)) ->
    reads_only (AwaitExecute sql ps k)
| ro_console (l : LogLine) (k : Async A) :
    reads_only k -> reads_only (Console l k).

(** The response headers [sendResponse] always writes. *)
Definition cors (r : Response) : Prop :=
  assoc "Access-Control-Allow-Origin" (headers r) = Some "*"
  /\ assoc "Access-Control-Allow-Methods" (headers r)
     = Some "GET, POST, PUT, DELETE, OPTIONS"
  /\ assoc "Access-Control-Allow-Headers" (headers r)
     = Some "Content-Type, Authorization".

(** The three kinds of answer the handlers give: a JSON document whose
    [success] is [true] under status 200 or 201; a JSON document
    [{success:false, error}] under a 4xx or 500 status; or, under status
    200, a text that is not JSON (the landing page and the preflight). *)
Definition answer_shape (r : Response) : Prop :=
  (exists data,
     payload r = Stringified data
     /\ get_prop data "success" = JBool true
     /\ assoc "Content-Type" (headers r) = Some "application/json"
     /\ (statusCode r = 200 \/ statusCode r = 201))
  \/ (exists msg,
        payload r = Stringified (failure msg)
        /\ assoc "Content-Type" (headers r) = Some "application/json"
        /\ In (statusCode r) [400; 401; 404; 409; 500])
  \/ (exists text,
        payload r = Verbatim (JStr text)
        /\ statusCode r = 200
        /\ (assoc "Content-Type" (headers r) = Some "text/html"
            \/ assoc "Content-Type" (headers r) = Some "text/plain")).

(** The statements of DELETE /user and of PUT /user after their check of
    the fields, with the [catch] block around them. *)
Definition delete_checked (id : JsVal) : Async Response :=
  try_catch
    (result <- execute DELETE_FROM_user_WHERE_id [id] ;;
     if strict_eq_num (get_prop result "affectedRows") 0 then
       Resolve (sendJson 404 (failure "User not found"))
     else
       Resolve (sendJson 200
                  (obj [("success", JBool true); ("message", JStr "User deleted")])))
    (fun err =>
       console_error "Delete error:" err ;;;
       Resolve (sendJson 500 (failure "Internal server error"))).

Definition update_checked (id email : JsVal) : Async Response :=
  try_catch
    (result <- execute UPDATE_user_SET_email_WHERE_id [email; id] ;;
     if strict_eq_num (get_prop result "affectedRows") 0 then
       Resolve (sendJson 404 (failure "User not found"))
     else
       Resolve (sendJson 200
                  (obj [("success", JBool true); ("message", JStr "Email updated")])))
    (fun err =>
       console_error "Update error:" err ;;;
       Resolve (sendJson 500 (failure "Internal server error"))).

Definition not_found : Response := sendJson 404 (failure "User not found").

Definition deleted : Response :=
  sendJson 200 (obj [("success", JBool true); ("message", JStr "User deleted")]).

Definition updated : Response :=
  sendJson 200 (obj [("success", JBool true); ("message", JStr "Email updated")]).

(** The table after [DELETE FROM user WHERE id = z] and after
    [UPDATE user SET email = e WHERE id = z]. *)
Definition without_id (z : Z) (t : Table) : Table :=
  {| rows := filter (fun u => negb (has_id z u)) (rows t);
     auto_increment := auto_increment t |}.

Definition with_email (e : string) (z : Z) (t : Table) : Table :=
  {| rows := map (fun u => if has_id z u then set_email e u else u) (rows t);
     auto_increment := auto_increment t |}.

(** What holds of every response the handlers write. *)
Definition well_formed_answer (r : Response) : Prop := cors r /\ answer_shape r.

Section Invariants.
Context {P : Platform}.

(** UNIQUE(name): no row's name equals, under the collation, the name
    of a row inserted after it. *)
Fixpoint distinct_names (l : list User) : Prop :=
  match l with
  | [] => True
  | u :: l' =>
      (forall v, In v l' -> name_eq (u_name u) (u_name v) = false)
      /\ distinct_names l'
  end.

(** What the declaration of a column promises of a row of table [t]:
    the id was drawn from the counter, and the strings fit. *)
Definition row_ok (t : Table) (u : User) : Prop :=
  1 <= u_id u < auto_increment t
  /\ fits 100 (u_name u) = true
  /\ fits 255 (u_password u) = true
  /\ (forall e, u_email u = Some e -> fits 100 e = true).

(** The table as its declaration constrains it: PRIMARY KEY(id),
    UNIQUE(name), and every row within its columns. *)
Definition table_ok (t : Table) : Prop :=
  1 <= auto_increment t
  /\ NoDup (map u_id (rows t))
  /\ distinct_names (rows t)
  /\ forall u, In u (rows t) -> row_ok t u.

Definition db_ok (d : Db) : Prop :=
  forall t, user_table d = Some t -> table_ok t.

End Invariants.

(* ================================================================== *)
(** ** Properties *)

Section Properties.
Context {P : Platform}.

(** *** Turns and runs *)

Lemma run_sync {A : Type} (m : Async A) (w : World) :
  run m w = run (fst (sync m w)) (snd (sync m w)).
Proof.
  revert w. induction m as [a | e | c | | sql ps k _ | k _ | d n k _ | l k IH | p k IH];
    intros w; try reflexivity.
  - simpl. apply IH.
  - simpl. apply IH.
Qed.

(** A run is the turns of the program taken one after the other. *)
Lemma run_step {A : Type} (m m' : Async A) (w w' : World) :
  step m w = Some (m', w') -> run m w = run m' w'.
Proof.
  destruct m as [a | e | c | | sql ps k | k | d n k | l k | p k]; simpl; intros H.
  - inversion H. reflexivity.
  - inversion H. reflexivity.
  - inversion H. reflexivity.
  - discriminate.
  - destruct (pool_execute sql ps (db w)) as [[r d] |]; [| discriminate].
    rewrite run_sync. destruct (sync (k r) (set_db w d)). inversion H. reflexivity.
  - rewrite run_sync. destruct (sync (k (pool_getConnection (db w))) w).
    inversion H. reflexivity.
  - destruct (bcrypt_hash d n (entropy w)) as [h | e]; rewrite run_sync.
    + destruct (sync (k (Fulfilled h)) (draw w)). inversion H. reflexivity.
    + destruct (sync (k (Rejected e)) w). inversion H. reflexivity.
  - rewrite run_sync. destruct (sync k (print w l)). inversion H. reflexivity.
  - rewrite run_sync. destruct (sync k (listen w p)). inversion H. reflexivity.
Qed.

(** *** Decoding *)

Lemma destructure_ok (v : JsVal) : nullish v = false -> destructure v = Resolve v.
Proof. destruct v; simpl; intros H; try discriminate; reflexivity. Qed.

Lemma parseBody_malformed (req : Request) (text : string) :
  incoming req = Ended text -> JSON_parse text = None ->
  parseBody req = Rejected (Error "Invalid JSON").
Proof. intros Hin Hparse. unfold parseBody. rewrite Hin, Hparse. reflexivity. Qed.

(** C1, as the code has it: when the body of a request to POST /register,
    POST /login, DELETE /user or PUT /user is not well-formed JSON, the
    handler logs the decode error and answers 500 with
    [{success:false, error:'Internal server error'}]; the store is not
    touched. *)
Theorem malformed_body_answers_500 (req : Request) (text : string) (w : World) :
  incoming req = Ended text ->
  JSON_parse text = None ->
  run (POST_register req) w
    = Some (Returned internal_server_error,
            print w (Stderr "Register error:" (Error "Invalid JSON")))
  /\ run (POST_login req) w
    = Some (Returned internal_server_error,
            print w (Stderr "Login error:" (Error "Invalid JSON")))
  /\ run (DELETE_user req) w
    = Some (Returned internal_server_error,
            print w (Stderr "Delete error:" (Error "Invalid JSON")))
  /\ run (PUT_user req) w
    = Some (Returned internal_server_error,
            print w (Stderr "Update error:" (Error "Invalid JSON"))).
Proof.
  intros Hin Hparse.
  pose proof (parseBody_malformed req text Hin Hparse) as Hbody.
  unfold POST_register, POST_login, DELETE_user, PUT_user.
  rewrite Hbody. simpl. repeat split; reflexivity.
Qed.

(** C10: when the body of a delete or update request decodes to a value
    whose [id] is falsy (0, the empty string, false, null, or absent),
    DELETE /user answers 400 'User ID required' and PUT /user answers 400
    'ID and new email required'; no statement reaches the store, so the
    answer is never 404. *)
Theorem falsy_id_answers_400 (req : Request) (fields : JsVal) (w : World) :
  parseBody req = Fulfilled fields ->
  nullish fields = false ->
  truthy (get_prop fields "id") = false ->
  run (DELETE_user req) w
    = Some (Returned (sendJson 400 (failure "User ID required")), w)
  /\ run (PUT_user req) w
    = Some (Returned (sendJson 400 (failure "ID and new email required")), w).
Proof.
  intros Hbody Hobj Hid.
  unfold DELETE_user, PUT_user.
  rewrite Hbody. simpl. rewrite (destructure_ok _ Hobj). simpl.
  rewrite Hid. simpl. split; reflexivity.
Qed.

(** *** Startup *)

(** C2, as the code has it: when the connectivity check fails the process
    exits with code 1 and nothing else happens.  Otherwise the process
    waits for the CREATE TABLE statement with the socket not yet open,
    and the server listens once that statement has settled, whether it
    was fulfilled or rejected: a rejection is logged and the server
    listens on a store that has no table. *)
Theorem startup_sequence (env_PORT : JsVal) (w : World) :
  (reachable (db w) = false ->
     run (main env_PORT) w
       = Some (Exited 1,
               print w (Stderr "❌ MySQL connection failed:" (MysqlError "ECONNREFUSED"))))
  /\ (reachable (db w) = true ->
      exists k : Settled JsVal -> Async unit,
        step (main env_PORT) w
          = Some (AwaitExecute CREATE_TABLE_IF_NOT_EXISTS_user [] k, print w connected)
        /\ listening (print w connected) = listening w)
  /\ (reachable (db w) = true ->
      forall (r : JsVal) (d : Db),
        pool_execute CREATE_TABLE_IF_NOT_EXISTS_user [] (db w) = Some (Fulfilled r, d) ->
        user_table d <> None
        /\ run (main env_PORT) w
           = Some (Returned tt,
                   print (listen (print (set_db (print w connected) d) initialized)
                            (PORT env_PORT))
                     (running env_PORT)))
  /\ (reachable (db w) = true ->
      forall (e : JsError) (d : Db),
        pool_execute CREATE_TABLE_IF_NOT_EXISTS_user [] (db w) = Some (Rejected e, d) ->
        d = db w
        /\ run (main env_PORT) w
           = Some (Returned tt,
                   print (listen (print (set_db (print w connected) d)
                                    (Stderr "❌ Database initialization failed:" e))
                            (PORT env_PORT))
                     (running env_PORT))).
Proof.
  destruct w as [d0 en co li]. destruct d0 as [re cg ut nw]. simpl.
  split; [| split; [| split]].
  - intros ->. reflexivity.
  - intros ->. eexists. split; reflexivity.
  - intros -> r d H. unfold pool_execute in H. simpl in H.
    destruct cg; simpl in H; [| discriminate].
    unfold main, testConnection, initDatabase. simpl.
    unfold pool_execute, pool_getConnection. simpl.
    destruct ut; inversion H; subst; simpl; split; try reflexivity; discriminate.
  - intros -> e d H. unfold pool_execute in H. simpl in H.
    destruct cg; simpl in H.
    + destruct ut; discriminate.
    + inversion H; subst. split; [reflexivity |].
      unfold main, testConnection, initDatabase. simpl.
      unfold pool_execute, pool_getConnection. simpl. reflexivity.
Qed.

(** *** Routing *)

Lemma space_inside (m p : string) : no_space (m ++ String " " p) = false.
Proof.
  induction m as [| c m IH]; simpl.
  - reflexivity.
  - rewrite IH. apply andb_false_r.
Qed.

(** A key [`${method} ${path}`] determines its method and path when it
    has only the one space. *)
Lemma key_split (a b m p : string) :
  no_space a = true -> no_space b = true ->
  m ++ " " ++ p = a ++ " " ++ b -> m = a /\ p = b.
Proof.
  intros Ha Hb.
  change (m ++ String " " p = a ++ String " " b -> m = a /\ p = b).
  revert m.
  induction a as [| x a IH]; intros m H.
  - destruct m as [| c m]; simpl in H.
    + inversion H. split; reflexivity.
    + inversion H as [[Hc Hrest]].
      pose proof (space_inside m p) as Hs. rewrite Hrest, Hb in Hs. discriminate.
  - simpl in Ha. apply andb_true_iff in Ha as [Hx Ha].
    destruct m as [| c m]; simpl in H.
    + inversion H as [[Hc Hrest]]. subst x. discriminate.
    + inversion H as [[Hc Hrest]]. destruct (IH Ha m Hrest) as [-> ->].
      split; reflexivity.
Qed.

Lemma assoc_absent {A : Type} (k : string) (l : list (string * A)) :
  ~ In k (map fst l) -> assoc k l = None.
Proof.
  induction l as [| [k' v] l IH]; simpl; intros H.
  - reflexivity.
  - destruct (String.eqb_spec k k') as [-> | _].
    + exfalso. apply H. left. reflexivity.
    + apply IH. intros Hin. apply H. right. exact Hin.
Qed.

Lemma routes_keys :
  map fst routes = map (fun mp => fst mp ++ " " ++ snd mp) registered.
Proof. reflexivity. Qed.

Lemma unregistered_key (m p : string) :
  ~ In (m, p) registered -> assoc (m ++ " " ++ p) routes = None.
Proof.
  intros H. apply assoc_absent. rewrite routes_keys. intros Hin.
  apply in_map_iff in Hin as [[a b] [Hk Hreg]]. simpl in Hk.
  assert (no_space a = true /\ no_space b = true) as [Ha Hb].
  { simpl in Hreg.
    repeat (destruct Hreg as [Hreg | Hreg];
            [inversion Hreg; subst; split; reflexivity |]).
    contradiction. }
  symmetry in Hk. apply key_split in Hk as [-> ->]; auto.
Qed.

Lemma no_wildcard (m : string) :
  m <> "OPTIONS" -> assoc (m ++ " *") routes = None.
Proof.
  intros H. apply assoc_absent. rewrite routes_keys. intros Hin.
  apply in_map_iff in Hin as [[a b] [Hk Hreg]]. simpl in Hk.
  simpl in Hreg.
  repeat (destruct Hreg as [Hreg | Hreg];
          [inversion Hreg; subst;
           symmetry in Hk; change (m ++ " *") with (m ++ " " ++ "*") in Hk;
           apply key_split in Hk as [Hm Hp]; try reflexivity;
           try discriminate; contradiction |]).
  contradiction.
Qed.

(** C5: the handler that serves a request is the one [routes] holds under
    the exact key "METHOD path"; failing that, the one under "METHOD *";
    failing that, the landing page, whatever the method and path.  So a
    request whose method is not OPTIONS and whose method and path are not
    a registered pair gets the landing page with status 200, not a 404. *)
Theorem route_selection (req : Request) :
  (forall handler, assoc (routeKey req) routes = Some handler ->
     server req = handler req)
  /\ (assoc (routeKey req) routes = None ->
      forall handler, assoc (method req ++ " *") routes = Some handler ->
        server req = handler req)
  /\ (assoc (routeKey req) routes = None ->
      assoc (method req ++ " *") routes = None ->
      server req = GET_root req)
  /\ (method req <> "OPTIONS" ->
      ~ In (method req, pathname req) registered ->
      forall w : World,
        run (server req) w
          = Some (Returned (sendResponse 200 (JStr landing_html) "text/html"), w)).
Proof.
  unfold server. repeat split.
  - intros handler ->. reflexivity.
  - intros -> handler ->. reflexivity.
  - intros -> ->. reflexivity.
  - intros Hm Hreg w. unfold routeKey.
    rewrite (unregistered_key _ _ Hreg), (no_wildcard _ Hm). reflexivity.
Qed.

(** *** The store *)

#[local] Open Scope list_scope.

Lemma filter_none {A : Type} (f : A -> bool) (l : list A) :
  (forall x, In x l -> f x = false) -> filter f l = [].
Proof.
  induction l as [| x l IH]; simpl; intros H.
  - reflexivity.
  - rewrite (H x (or_introl eq_refl)). apply IH. intros y Hy. apply H. right. exact Hy.
Qed.

Lemma filter_all {A : Type} (f : A -> bool) (l : list A) :
  (forall x, In x l -> f x = true) -> filter f l = l.
Proof.
  induction l as [| x l IH]; simpl; intros H.
  - reflexivity.
  - rewrite (H x (or_introl eq_refl)). f_equal. apply IH. intros y Hy. apply H. right. exact Hy.
Qed.

Lemma map_untouched {A : Type} (f : A -> bool) (g : A -> A) (l : list A) :
  (forall x, In x l -> f x = false) -> map (fun x => if f x then g x else x) l = l.
Proof.
  induction l as [| x l IH]; simpl; intros H.
  - reflexivity.
  - rewrite (H x (or_introl eq_refl)). f_equal. apply IH. intros y Hy. apply H. right. exact Hy.
Qed.

Lemma existsb_false_filter {A : Type} (f : A -> bool) (l : list A) :
  existsb f l = false -> filter f l = [].
Proof.
  intros H. apply filter_none. intros x Hx.
  destruct (f x) eqn:E; [| reflexivity].
  assert (existsb f l = true) as Ht by (apply existsb_exists; eauto).
  congruence.
Qed.

Lemma has_id_true (z : Z) (u : User) : has_id z u = true <-> u_id u = z.
Proof. unfold has_id. apply Z.eqb_eq. Qed.

Lemma has_id_false (z : Z) (u : User) : has_id z u = false <-> u_id u <> z.
Proof. unfold has_id. apply Z.eqb_neq. Qed.

(** PRIMARY KEY: a row is the only one with its id. *)
Lemma primary_key_split (l : list User) (u : User) :
  NoDup (map u_id l) -> In u l ->
  exists before after,
    l = before ++ u :: after
    /\ forall v, In v (before ++ after) -> has_id (u_id u) v = false.
Proof.
  intros Hnd Hin. apply in_split in Hin as [before [after ->]].
  exists before, after. split; [reflexivity |].
  rewrite map_app in Hnd. simpl in Hnd. apply NoDup_remove_2 in Hnd.
  intros v Hv. apply has_id_false. intros Heq. apply Hnd.
  rewrite <- map_app, <- Heq. apply in_map. exact Hv.
Qed.

Lemma pool_execute_on_table (sql : Sql) (params : list JsVal) (d : Db) (t : Table) :
  reachable d = true -> user_table d = Some t ->
  sql <> CREATE_TABLE_IF_NOT_EXISTS_user ->
  pool_execute sql params d
    = match execute_on t (now d) sql params with
      | Some (r, t') => Some (r, with_table d t')
      | None => None
      end.
Proof.
  intros Hr Ht Hsql. unfold pool_execute. rewrite Hr, Ht. simpl.
  destruct sql; try reflexivity. contradiction.
Qed.

Lemma db_set_db (w : World) (d : Db) : db (set_db w d) = d.
Proof. reflexivity. Qed.

Lemma same_table (w : World) (t : Table) :
  user_table (db w) = Some t -> set_db w (with_table (db w) t) = w.
Proof.
  destruct w as [[re cg ut nw] en co li]. simpl. intros ->. reflexivity.
Qed.

Lemma same_rows (w : World) (t : Table) :
  user_table (db w) = Some t ->
  set_db w (with_table (db w) {| rows := rows t; auto_increment := auto_increment t |}) = w.
Proof. intros Ht. destruct t. apply (same_table w _ Ht). Qed.

(** C8, as the code has it: for a delete request whose [id] is a number
    other than 0, on a store that is up.  When no row has that id the
    answer is 404 and the world is as before.  When a row has it the
    answer is 200, that row is removed and the rows before and after it
    stay as they were, in order; none of them has the id, and a list
    request afterwards returns exactly them. *)
Theorem delete_by_id (req : Request) (fields : JsVal) (z : Z) (w : World) (t : Table) :
  parseBody req = Fulfilled fields ->
  nullish fields = false ->
  get_prop fields "id" = JNum z ->
  z <> 0 ->
  reachable (db w) = true ->
  user_table (db w) = Some t ->
  NoDup (map u_id (rows t)) ->
  ((forall u, In u (rows t) -> u_id u <> z) ->
     run (DELETE_user req) w
       = Some (Returned (sendJson 404 (failure "User not found")), w))
  /\ (forall u, In u (rows t) -> u_id u = z ->
      exists before after w',
        rows t = before ++ u :: after
        /\ w' = set_db w (with_table (db w)
                            {| rows := before ++ after;
                               auto_increment := auto_increment t |})
        /\ run (DELETE_user req) w
           = Some (Returned (sendJson 200 (obj [("success", JBool true);
                                                ("message", JStr "User deleted")])), w')
        /\ (forall v, In v (before ++ after) -> u_id v <> z)
        /\ forall req',
             run (GET_users req') w'
             = Some (Returned
                       (sendJson 200
                          (obj [("success", JBool true);
                                ("users", JArr (map row_listed (before ++ after)))])),
                     w')).
Proof.
  intros Hbody Hobj Hid Hz Hup Ht Hpk.
  assert (Hrun : forall k : Settled JsVal -> Async Response,
            run (AwaitExecute DELETE_FROM_user_WHERE_id [JNum z] k) w
            = run (k (Fulfilled (ResultSetHeader
                                   (Z.of_nat (List.length (filter (has_id z) (rows t)))) 0)))
                (set_db w (with_table (db w)
                             {| rows := filter (fun u => negb (has_id z u)) (rows t);
                                auto_increment := auto_increment t |}))).
  { intros k. simpl. rewrite (pool_execute_on_table _ _ _ t Hup Ht) by discriminate.
    reflexivity. }
  assert (Hstart : run (DELETE_user req) w
            = run (try_catch
                     (result <- execute DELETE_FROM_user_WHERE_id [JNum z] ;;
                      if strict_eq_num (get_prop result "affectedRows") 0 then
                        Resolve (sendJson 404 (failure "User not found"))
                      else
                        Resolve (sendJson 200
                                   (obj [("success", JBool true);
                                         ("message", JStr "User deleted")])))
                     (fun err =>
                        console_error "Delete error:" err ;;;
                        Resolve (sendJson 500 (failure "Internal server error")))) w).
  { unfold DELETE_user. rewrite Hbody. simpl. rewrite (destructure_ok _ Hobj). simpl.
    rewrite Hid. simpl. apply Z.eqb_neq in Hz. rewrite Hz. reflexivity. }
  split.
  - intros Hnone. rewrite Hstart. unfold execute. cbn [bind try_catch]. rewrite Hrun.
    assert (Hf : forall u, In u (rows t) -> has_id z u = false)
      by (intros u Hu; apply has_id_false; auto).
    rewrite (filter_none _ _ Hf).
    rewrite (filter_all (fun u => negb (has_id z u))) by (intros u Hu; rewrite Hf; auto).
    rewrite (same_rows w t Ht). reflexivity.
  - intros u Hu Heq.
    destruct (primary_key_split _ _ Hpk Hu) as [before [after [Hrows Hothers]]].
    rewrite Heq in Hothers.
    exists before, after. eexists. split; [exact Hrows |]. split; [reflexivity |].
    assert (Hkeep : filter (fun v => negb (has_id z v)) (rows t) = before ++ after).
    { rewrite Hrows, filter_app. simpl.
      replace (has_id z u) with true by (symmetry; apply has_id_true; exact Heq). simpl.
      rewrite <- filter_app. apply filter_all. intros v Hv. rewrite (Hothers v Hv). reflexivity. }
    assert (Hgone : filter (has_id z) (rows t) = [u]).
    { rewrite Hrows, filter_app. simpl.
      replace (has_id z u) with true by (symmetry; apply has_id_true; exact Heq).
      rewrite (filter_none (has_id z) before), (filter_none (has_id z) after); auto.
      - intros v Hv. apply Hothers. apply in_or_app. right. exact Hv.
      - intros v Hv. apply Hothers. apply in_or_app. left. exact Hv. }
    split; [| split].
    + rewrite Hstart. unfold execute. cbn [bind try_catch]. rewrite Hrun.
      rewrite Hgone, Hkeep. reflexivity.
    + intros v Hv. apply has_id_false. apply Hothers. exact Hv.
    + intros req'. unfold GET_users, execute. cbn [bind try_catch run].
      rewrite db_set_db.
      rewrite (pool_execute_on_table _ _ _
                 {| rows := before ++ after; auto_increment := auto_increment t |});
        [| exact Hup | reflexivity | discriminate].
      simpl. destruct w as [[re cg ut nw] en co li]. reflexivity.
Qed.

(** C9, as the code has it: for an update request whose [id] is a number
    other than 0 and whose [email] is a non-empty string that fits the
    column, on a store that is up.  When a row has the id the answer is
    200 and that row's email becomes the new one; its id, name, password
    and created_at, and the rows before and after it, stay as they were.
    When no row has the id the answer is 404 and the world is as before. *)
Theorem update_email_by_id
  (req : Request) (fields : JsVal) (z : Z) (e : string) (w : World) (t : Table) :
  parseBody req = Fulfilled fields ->
  nullish fields = false ->
  get_prop fields "id" = JNum z ->
  z <> 0 ->
  get_prop fields "email" = JStr e ->
  e <> ""%string ->
  fits 100 e = true ->
  reachable (db w) = true ->
  user_table (db w) = Some t ->
  NoDup (map u_id (rows t)) ->
  (forall u, In u (rows t) -> u_id u = z ->
     exists before after,
       rows t = before ++ u :: after
       /\ run (PUT_user req) w
          = Some (Returned (sendJson 200 (obj [("success", JBool true);
                                               ("message", JStr "Email updated")])),
                  set_db w (with_table (db w)
                              {| rows := before ++ set_email e u :: after;
                                 auto_increment := auto_increment t |}))
       /\ u_email (set_email e u) = Some e
       /\ u_id (set_email e u) = u_id u
       /\ u_name (set_email e u) = u_name u
       /\ u_password (set_email e u) = u_password u
       /\ u_created_at (set_email e u) = u_created_at u)
  /\ ((forall u, In u (rows t) -> u_id u <> z) ->
      run (PUT_user req) w
        = Some (Returned (sendJson 404 (failure "User not found")), w)).
Proof.
  intros Hbody Hobj Hid Hz Hmail He Hfit Hup Ht Hpk.
  set (update := fun u => if has_id z u then set_email e u else u).
  assert (Hrun : forall k : Settled JsVal -> Async Response,
            run (AwaitExecute UPDATE_user_SET_email_WHERE_id [JStr e; JNum z] k) w
            = run (k (Fulfilled (ResultSetHeader
                                   (Z.of_nat (List.length (filter (has_id z) (rows t)))) 0)))
                (set_db w (with_table (db w)
                             {| rows := map update (rows t);
                                auto_increment := auto_increment t |}))).
  { intros k. simpl. rewrite (pool_execute_on_table _ _ _ t Hup Ht) by discriminate.
    simpl. rewrite Hfit. reflexivity. }
  assert (Hstart : run (PUT_user req) w
            = run (try_catch
                     (result <- execute UPDATE_user_SET_email_WHERE_id [JStr e; JNum z] ;;
                      if strict_eq_num (get_prop result "affectedRows") 0 then
                        Resolve (sendJson 404 (failure "User not found"))
                      else
                        Resolve (sendJson 200
                                   (obj [("success", JBool true);
                                         ("message", JStr "Email updated")])))
                     (fun err =>
                        console_error "Update error:" err ;;;
                        Resolve (sendJson 500 (failure "Internal server error")))) w).
  { unfold PUT_user. rewrite Hbody. simpl. rewrite (destructure_ok _ Hobj). simpl.
    rewrite Hid, Hmail. simpl. apply Z.eqb_neq in Hz. rewrite Hz.
    apply String.eqb_neq in He. rewrite He. reflexivity. }
  split.
  - intros u Hu Heq.
    destruct (primary_key_split _ _ Hpk Hu) as [before [after [Hrows Hothers]]].
    rewrite Heq in Hothers.
    exists before, after. split; [exact Hrows |].
    assert (Hu_z : has_id z u = true) by (apply has_id_true; exact Heq).
    assert (Hnew : map update (rows t) = before ++ set_email e u :: after).
    { rewrite Hrows, map_app. simpl. unfold update at 2. rewrite Hu_z.
      unfold update. rewrite !map_untouched; auto.
      - intros v Hv. apply Hothers. apply in_or_app. right. exact Hv.
      - intros v Hv. apply Hothers. apply in_or_app. left. exact Hv. }
    assert (Hhit : filter (has_id z) (rows t) = [u]).
    { rewrite Hrows, filter_app. simpl. rewrite Hu_z.
      rewrite (filter_none (has_id z) before), (filter_none (has_id z) after); auto.
      - intros v Hv. apply Hothers. apply in_or_app. right. exact Hv.
      - intros v Hv. apply Hothers. apply in_or_app. left. exact Hv. }
    split; [| repeat split].
    rewrite Hstart. unfold execute. cbn [bind try_catch]. rewrite Hrun.
    rewrite Hhit, Hnew. reflexivity.
  - intros Hnone. rewrite Hstart. unfold execute. cbn [bind try_catch]. rewrite Hrun.
    assert (Hf : forall u, In u (rows t) -> has_id z u = false)
      by (intros u Hu; apply has_id_false; auto).
    rewrite (filter_none _ _ Hf). unfold update. rewrite (map_untouched _ _ _ Hf).
    rewrite (same_rows w t Ht). reflexivity.
Qed.

(** *** Register *)

Lemma run_select_by_name (sql : Sql) (row : User -> JsVal) (n : string)
  (k : Settled JsVal -> Async Response) (w : World) (t : Table) :
  reachable (db w) = true -> user_table (db w) = Some t ->
  (sql = SELECT_id_FROM_user_WHERE_name /\ row = row_id
   \/ sql = SELECT_id_password_FROM_user_WHERE_name /\ row = row_id_password) ->
  run (AwaitExecute sql [JStr n] k) w
    = run (k (Fulfilled (JArr (map row (filter (has_name n) (rows t)))))) w.
Proof.
  intros Hup Ht Hsql. cbn [run].
  rewrite (pool_execute_on_table _ _ _ t Hup Ht)
    by (destruct Hsql as [[-> _] | [-> _]]; discriminate).
  destruct Hsql as [[-> ->] | [-> ->]]; simpl;
    rewrite (same_table w t Ht); reflexivity.
Qed.

Lemma register_validated (req : Request) (fields : JsVal) :
  parseBody req = Fulfilled fields ->
  nullish fields = false ->
  truthy (get_prop fields "name") = true ->
  truthy (get_prop fields "password") = true ->
  js_lt (get_prop (get_prop fields "password") "length") 6 = Some false ->
  POST_register req
    = register_checked (get_prop fields "name") (get_prop fields "password")
        (get_prop fields "email").
Proof.
  intros Hbody Hobj Hname Hpw Hlen. unfold POST_register.
  rewrite Hbody. simpl. rewrite (destructure_ok _ Hobj). simpl.
  rewrite Hname, Hpw. simpl. rewrite Hlen. reflexivity.
Qed.

Lemma long_enough (p : string) :
  (6 <= String.length p)%nat -> js_lt (get_prop (JStr p) "length") 6 = Some false.
Proof. intros H. simpl. unfold js_lt. simpl. f_equal. apply Z.ltb_ge. lia. Qed.

Lemma length_array_gt (l : list JsVal) :
  js_gt (get_prop (JArr l) "length") 0 = Some (negb (Nat.eqb (List.length l) 0)).
Proof. simpl. unfold js_gt. simpl. f_equal. destruct l; reflexivity. Qed.

Lemma run_register_taken (n : string) (password email : JsVal) (w : World) (t : Table) :
  reachable (db w) = true -> user_table (db w) = Some t ->
  existsb (has_name n) (rows t) = true ->
  run (register_checked (JStr n) password email) w
    = Some (Returned (sendJson 409 (failure "Username already exists")), w).
Proof.
  intros Hup Ht Hex. unfold register_checked, execute. cbn [bind try_catch].
  rewrite (run_select_by_name _ row_id n _ w t Hup Ht) by (left; split; reflexivity).
  cbn [await bind try_catch]. rewrite length_array_gt.
  destruct (filter (has_name n) (rows t)) as [| u l] eqn:E.
  - apply existsb_exists in Hex as [u [Hu Hn]].
    assert (In u (filter (has_name n) (rows t))) as Hin by (apply filter_In; auto).
    rewrite E in Hin. contradiction.
  - reflexivity.
Qed.

Lemma run_register_new (n p : string) (email : JsVal) (w : World) (t : Table) :
  reachable (db w) = true -> user_table (db w) = Some t ->
  existsb (has_name n) (rows t) = false ->
  fits 100 n = true ->
  storable_email email = true ->
  fits 255 (bcrypt_hashpw p 12 (entropy w)) = true ->
  auto_increment t <= INT_MAX ->
  run (register_checked (JStr n) (JStr p) email) w
    = Some (Returned (created (auto_increment t)),
            set_db (draw w)
              (with_table (db w)
                 {| rows := rows t
                            ++ [new_user t (now (db w)) n
                                  (bcrypt_hashpw p 12 (entropy w)) email];
                    auto_increment := auto_increment t + 1 |})).
Proof.
  intros Hup Ht Hex Hn Hmail Hh Hai. unfold register_checked, execute. cbn [bind try_catch].
  rewrite (run_select_by_name _ row_id n _ w t Hup Ht) by (left; split; reflexivity).
  cbn [await bind try_catch]. rewrite length_array_gt.
  rewrite (existsb_false_filter _ _ Hex). cbn [map List.length Nat.eqb negb modelled bind try_catch].
  unfold hash. cbn [bind try_catch run bcrypt_hash await].
  rewrite (pool_execute_on_table _ _ _ t) by (try discriminate; assumption).
  cbn [execute_on]. unfold storable_email in Hmail. unfold new_user, stored_email.
  apply Z.ltb_ge in Hai.
  destruct (js_or email JNull) eqn:Em; try discriminate;
    try rewrite Hmail; rewrite Hn, Hh; cbn [andb negb]; cbn [auto_increment draw db];
    rewrite Hai, Hex; simpl; destruct w as [[re cg ut nw] en co li]; reflexivity.
Qed.

Lemma one_row_named (n : string) (l : list User) (u : User) :
  existsb (has_name n) l = false -> has_name n u = true ->
  List.length (filter (has_name n) (l ++ [u])) = 1%nat.
Proof.
  intros Hex Hu. rewrite filter_app, (existsb_false_filter _ _ Hex). simpl.
  rewrite Hu. reflexivity.
Qed.

(** C7: for a register request whose body decodes to a value with
    fields.  A falsy (missing) name or password is answered 400.
    Otherwise a password string shorter than 6 is answered 400.
    Otherwise, when a row of that name exists, the answer is 409 and the
    world is as before.  And when no row of that name exists the request
    is answered 201, after which any further registration of the name is
    answered 409 and the table holds exactly one row of that name. *)
Theorem register_validation (req : Request) (fields : JsVal) (w : World) :
  parseBody req = Fulfilled fields ->
  nullish fields = false ->
  (truthy (get_prop fields "name") = false
   \/ truthy (get_prop fields "password") = false ->
   run (POST_register req) w
     = Some (Returned (sendJson 400 (failure "Name and password required")), w))
  /\ (forall p : string,
        truthy (get_prop fields "name") = true ->
        get_prop fields "password" = JStr p ->
        p <> ""%string ->
        (String.length p < 6)%nat ->
        run (POST_register req) w
          = Some (Returned
                    (sendJson 400 (failure "Password must be at least 6 characters")), w))
  /\ (forall (n : string) (t : Table),
        get_prop fields "name" = JStr n ->
        n <> ""%string ->
        truthy (get_prop fields "password") = true ->
        js_lt (get_prop (get_prop fields "password") "length") 6 = Some false ->
        reachable (db w) = true ->
        user_table (db w) = Some t ->
        existsb (has_name n) (rows t) = true ->
        run (POST_register req) w
          = Some (Returned (sendJson 409 (failure "Username already exists")), w))
  /\ (forall (n p : string) (t : Table),
        get_prop fields "name" = JStr n ->
        n <> ""%string ->
        get_prop fields "password" = JStr p ->
        (6 <= String.length p)%nat ->
        fits 100 n = true ->
        storable_email (get_prop fields "email") = true ->
        fits 255 (bcrypt_hashpw p 12 (entropy w)) = true ->
        reachable (db w) = true ->
        user_table (db w) = Some t ->
        existsb (has_name n) (rows t) = false ->
        auto_increment t <= INT_MAX ->
        name_eq n n = true ->
        exists (w1 : World) (t1 : Table),
          run (POST_register req) w = Some (Returned (created (auto_increment t)), w1)
          /\ user_table (db w1) = Some t1
          /\ List.length (filter (has_name n) (rows t1)) = 1%nat
          /\ forall (req2 : Request) (fields2 : JsVal),
               parseBody req2 = Fulfilled fields2 ->
               nullish fields2 = false ->
               get_prop fields2 "name" = JStr n ->
               truthy (get_prop fields2 "password") = true ->
               js_lt (get_prop (get_prop fields2 "password") "length") 6 = Some false ->
               run (POST_register req2) w1
                 = Some (Returned (sendJson 409 (failure "Username already exists")), w1)).
Proof.
  intros Hbody Hobj.
  assert (Htruthy : forall s, s <> ""%string -> truthy (JStr s) = true).
  { intros s Hs. simpl. apply String.eqb_neq in Hs. rewrite Hs. reflexivity. }
  repeat split.
  - intros Hmiss. unfold POST_register. rewrite Hbody. simpl.
    rewrite (destructure_ok _ Hobj). simpl.
    destruct Hmiss as [-> | ->]; simpl; [| rewrite orb_true_r]; reflexivity.
  - intros p Hname Hpw Hp Hlen. unfold POST_register. rewrite Hbody. simpl.
    rewrite (destructure_ok _ Hobj). simpl. rewrite Hname, Hpw, (Htruthy p Hp). simpl.
    unfold js_lt. simpl.
    replace (Z.of_nat (String.length p) <? 6) with true
      by (symmetry; apply Z.ltb_lt; lia).
    reflexivity.
  - intros n t Hname Hn Hpw Hlen Hup Ht Hex.
    rewrite (register_validated req fields Hbody Hobj); auto.
    + rewrite Hname. apply (run_register_taken n _ _ w t Hup Ht Hex).
    + rewrite Hname. apply Htruthy, Hn.
  - intros n p t Hname Hn Hpw Hlen Hfit Hmail Hhash Hup Ht Hex Hai Hrefl.
    assert (Hp : p <> ""%string) by (intros ->; simpl in Hlen; lia).
    rewrite (register_validated req fields Hbody Hobj);
      [| rewrite Hname; apply Htruthy, Hn
       | rewrite Hpw; apply Htruthy, Hp
       | rewrite Hpw; apply long_enough, Hlen].
    rewrite Hname, Hpw.
    rewrite (run_register_new n p _ w t Hup Ht Hex Hfit Hmail Hhash Hai).
    eexists. eexists. split; [reflexivity |].
    split; [reflexivity |]. cbn [rows].
    assert (Hone : existsb (has_name n)
                     (rows t ++ [new_user t (now (db w)) n
                                   (bcrypt_hashpw p 12 (entropy w))
                                   (get_prop fields "email")]) = true).
    { rewrite existsb_app. simpl. unfold has_name at 2. simpl. rewrite Hrefl.
      rewrite orb_true_r. reflexivity. }
    split.
    + apply one_row_named; [exact Hex | exact Hrefl].
    + intros req2 fields2 Hbody2 Hobj2 Hname2 Hpw2 Hlen2.
      rewrite (register_validated req2 fields2 Hbody2 Hobj2); auto.
      * rewrite Hname2. eapply run_register_taken; [exact Hup | reflexivity | exact Hone].
      * rewrite Hname2. apply Htruthy, Hn.
Qed.

(** *** Login *)

Lemma login_validated (req : Request) (fields : JsVal) :
  parseBody req = Fulfilled fields ->
  nullish fields = false ->
  truthy (get_prop fields "name") = true ->
  truthy (get_prop fields "password") = true ->
  POST_login req = login_checked (get_prop fields "name") (get_prop fields "password").
Proof.
  intros Hbody Hobj Hname Hpw. unfold POST_login.
  rewrite Hbody. simpl. rewrite (destructure_ok _ Hobj). simpl.
  rewrite Hname, Hpw. reflexivity.
Qed.

Lemma run_login_unknown (n : string) (password : JsVal) (w : World) (t : Table) :
  reachable (db w) = true -> user_table (db w) = Some t ->
  existsb (has_name n) (rows t) = false ->
  run (login_checked (JStr n) password) w
    = Some (Returned (sendJson 401 (failure "Invalid credentials")), w).
Proof.
  intros Hup Ht Hex. unfold login_checked, execute. cbn [bind try_catch].
  rewrite (run_select_by_name _ row_id_password n _ w t Hup Ht)
    by (right; split; reflexivity).
  rewrite (existsb_false_filter _ _ Hex). reflexivity.
Qed.

(** The first row of the name decides: its hash is compared, and a
    rejected comparison ends in the [catch] block. *)
Lemma run_login_known (n : string) (password : JsVal) (w : World) (t : Table)
  (u : User) (others : list User) :
  reachable (db w) = true -> user_table (db w) = Some t ->
  filter (has_name n) (rows t) = u :: others ->
  run (login_checked (JStr n) password) w
    = match bcrypt_compare password (JStr (u_password u)) with
      | Fulfilled true => Some (Returned (logged_in (u_id u)), w)
      | Fulfilled false =>
          Some (Returned (sendJson 401 (failure "Invalid credentials")), w)
      | Rejected e =>
          Some (Returned internal_server_error, print w (Stderr "Login error:" e))
      end.
Proof.
  intros Hup Ht Hrows. unfold login_checked, execute. cbn [bind try_catch].
  rewrite (run_select_by_name _ row_id_password n _ w t Hup Ht)
    by (right; split; reflexivity).
  rewrite Hrows. cbn [await bind try_catch map get_prop List.length first_item].
  change (strict_eq_num (JNum (Z.of_nat (S (List.length (map row_id_password others))))) 0)
    with (Z.of_nat (S (List.length (map row_id_password others))) =? 0).
  replace (Z.of_nat (S (List.length (map row_id_password others))) =? 0) with false
    by (symmetry; apply Z.eqb_neq; lia).
  change (get_prop (row_id_password u) "password") with (JStr (u_password u)).
  destruct (bcrypt_compare password (JStr (u_password u))) as [[|] | e]; reflexivity.
Qed.

Lemma some_row_named (n : string) (l : list User) :
  existsb (has_name n) l = true ->
  exists u others, filter (has_name n) l = u :: others.
Proof.
  intros Hex. destruct (filter (has_name n) l) as [| u others] eqn:E.
  - apply existsb_exists in Hex as [u [Hu Hn]].
    assert (In u (filter (has_name n) l)) as Hin by (apply filter_In; auto).
    rewrite E in Hin. contradiction.
  - eauto.
Qed.

(** For a password that is a string, the two failures are answered
    alike: 401 with the same body, and the world is as before. *)
Lemma login_failures_alike (n p : string) (w : World) (t : Table) :
  reachable (db w) = true -> user_table (db w) = Some t ->
  (existsb (has_name n) (rows t) = false ->
     run (login_checked (JStr n) (JStr p)) w
       = Some (Returned (sendJson 401 (failure "Invalid credentials")), w))
  /\ (forall u others,
        filter (has_name n) (rows t) = u :: others ->
        bcrypt_checkpw p (u_password u) = false ->
        run (login_checked (JStr n) (JStr p)) w
          = Some (Returned (sendJson 401 (failure "Invalid credentials")), w)).
Proof.
  intros Hup Ht. split.
  - apply run_login_unknown; assumption.
  - intros u others Hrows Hwrong.
    rewrite (run_login_known n _ w t u others Hup Ht Hrows). simpl.
    rewrite Hwrong. reflexivity.
Qed.

(** C6, where the code departs from it: a login whose password is present
    but is not a string (a number, [true], an array, an object).  When a
    row of the name exists, [bcrypt.compare] rejects and the answer is
    500; when none exists the answer is 401.  The two answers tell the
    client whether the name is registered. *)
Theorem login_non_string_password
  (req : Request) (fields : JsVal) (n : string) (w : World) (t : Table) :
  parseBody req = Fulfilled fields ->
  nullish fields = false ->
  get_prop fields "name" = JStr n ->
  n <> ""%string ->
  truthy (get_prop fields "password") = true ->
  (forall s, get_prop fields "password" <> JStr s) ->
  reachable (db w) = true ->
  user_table (db w) = Some t ->
  (existsb (has_name n) (rows t) = true ->
     run (POST_login req) w
       = Some (Returned internal_server_error,
               print w (Stderr "Login error:" (Error "data and hash must be strings"))))
  /\ (existsb (has_name n) (rows t) = false ->
      run (POST_login req) w
        = Some (Returned (sendJson 401 (failure "Invalid credentials")), w)).
Proof.
  intros Hbody Hobj Hname Hn Hpw Hns Hup Ht.
  assert (Hstart : POST_login req = login_checked (JStr n) (get_prop fields "password")).
  { rewrite <- Hname. apply (login_validated req fields Hbody Hobj); [| exact Hpw].
    rewrite Hname. simpl. apply String.eqb_neq in Hn. rewrite Hn. reflexivity. }
  rewrite Hstart. split.
  - intros Hex. destruct (some_row_named n _ Hex) as [u [others Hrows]].
    rewrite (run_login_known n _ w t u others Hup Ht Hrows).
    destruct (get_prop fields "password") as [| | b | z | s | l | o | d];
      try discriminate; try reflexivity.
    exfalso. apply (Hns s). reflexivity.
  - apply run_login_unknown; assumption.
Qed.

(** *** Two registrations in flight *)

(** C3, where the code departs from it: a registration whose duplicate
    check ran in a world [w1] without a row of the name, whose hash was
    computed in a world [w2], and whose INSERT runs in a world [w3] where
    another request has added a row of the name.  The INSERT is rejected
    with ER_DUP_ENTRY, the [catch] block logs it, and the answer is 500,
    not 409. *)
Theorem register_lost_race
  (req : Request) (fields : JsVal) (n p : string) (w1 w2 w3 : World) (t1 t3 : Table) :
  parseBody req = Fulfilled fields ->
  nullish fields = false ->
  get_prop fields "name" = JStr n ->
  n <> ""%string ->
  get_prop fields "password" = JStr p ->
  (6 <= String.length p)%nat ->
  fits 100 n = true ->
  storable_email (get_prop fields "email") = true ->
  fits 255 (bcrypt_hashpw p 12 (entropy w2)) = true ->
  reachable (db w1) = true ->
  user_table (db w1) = Some t1 ->
  existsb (has_name n) (rows t1) = false ->
  reachable (db w3) = true ->
  user_table (db w3) = Some t3 ->
  existsb (has_name n) (rows t3) = true ->
  auto_increment t3 <= INT_MAX ->
  exists (hashed : Async Response) (inserting : Async Response),
    step (POST_register req) w1 = Some (hashed, w1)
    /\ step hashed w2 = Some (inserting, draw w2)
    /\ pool_execute INSERT_INTO_user
         [JStr n; JStr (bcrypt_hashpw p 12 (entropy w2));
          js_or (get_prop fields "email") JNull] (db w3)
       = Some (Rejected (MysqlError "ER_DUP_ENTRY"),
               with_table (db w3)
                 {| rows := rows t3; auto_increment := auto_increment t3 + 1 |})
    /\ run inserting w3
       = Some (Returned internal_server_error,
               print (set_db w3
                        (with_table (db w3)
                           {| rows := rows t3; auto_increment := auto_increment t3 + 1 |}))
                 (Stderr "Register error:" (MysqlError "ER_DUP_ENTRY"))).
Proof.
  intros Hbody Hobj Hname Hn Hpw Hlen Hfit Hmail Hhash Hup1 Ht1 Hex1 Hup3 Ht3 Hex3 Hai.
  assert (Htruthy : forall s, s <> ""%string -> truthy (JStr s) = true).
  { intros s Hs. simpl. apply String.eqb_neq in Hs. rewrite Hs. reflexivity. }
  assert (Hp : p <> ""%string) by (intros ->; simpl in Hlen; lia).
  rewrite (register_validated req fields Hbody Hobj);
    [| rewrite Hname; apply Htruthy, Hn
     | rewrite Hpw; apply Htruthy, Hp
     | rewrite Hpw; apply long_enough, Hlen].
  rewrite Hname, Hpw.
  assert (Hinsert :
            pool_execute INSERT_INTO_user
              [JStr n; JStr (bcrypt_hashpw p 12 (entropy w2));
               js_or (get_prop fields "email") JNull] (db w3)
            = Some (Rejected (MysqlError "ER_DUP_ENTRY"),
                    with_table (db w3)
                      {| rows := rows t3; auto_increment := auto_increment t3 + 1 |})).
  { rewrite (pool_execute_on_table _ _ _ t3 Hup3 Ht3) by discriminate.
    cbn [execute_on]. unfold storable_email in Hmail. apply Z.ltb_ge in Hai.
    destruct (js_or (get_prop fields "email") JNull); try discriminate;
      try rewrite Hmail; rewrite Hfit, Hhash; cbn [andb negb];
      rewrite Hai, Hex3; reflexivity. }
  unfold register_checked, execute, hash. cbn [bind try_catch].
  eexists. eexists. split; [| split; [| split; [exact Hinsert |]]].
  - cbn [step]. rewrite (pool_execute_on_table _ _ _ t1 Hup1 Ht1) by discriminate.
    cbn [execute_on]. rewrite (same_table w1 t1 Ht1), (existsb_false_filter _ _ Hex1).
    reflexivity.
  - reflexivity.
  - cbn. rewrite Hinsert. reflexivity.
Qed.

(** *** The scenario of the specification *)

(** C4, as the code has it: on a store whose table has just been created,
    registering alice with secret1 is answered 201 with
    [{success:true, message:'Account created', userId:1}]; a login as
    alice with a wrong password is then answered 401 with
    [{success:false, error:'Invalid credentials'}], and a login with
    secret1 is answered 200 with
    [{success:true, message:'Login successful', userId:1}]. *)
Theorem scenario_alice (body wrong_body : string) (w : World) :
  JSON_parse body = Some (obj [("name", JStr "alice"); ("password", JStr "secret1")]) ->
  JSON_parse wrong_body = Some (obj [("name", JStr "alice"); ("password", JStr "wrong")]) ->
  name_eq "alice" "alice" = true ->
  fits 255 (bcrypt_hashpw "secret1" 12 (entropy w)) = true ->
  bcrypt_checkpw "secret1" (bcrypt_hashpw "secret1" 12 (entropy w)) = true ->
  bcrypt_checkpw "wrong" (bcrypt_hashpw "secret1" 12 (entropy w)) = false ->
  reachable (db w) = true ->
  user_table (db w) = Some {| rows := []; auto_increment := 1 |} ->
  exists w1 : World,
    run (server (post "/register" body)) w = Some (Returned (created 1), w1)
    /\ run (server (post "/login" wrong_body)) w1
       = Some (Returned (sendJson 401 (failure "Invalid credentials")), w1)
    /\ run (server (post "/login" body)) w1 = Some (Returned (logged_in 1), w1).
Proof.
  intros Hbody Hwrong Hrefl Hfit Hright Hbad Hup Ht.
  change (server (post "/register" body)) with (POST_register (post "/register" body)).
  change (server (post "/login" wrong_body)) with (POST_login (post "/login" wrong_body)).
  change (server (post "/login" body)) with (POST_login (post "/login" body)).
  assert (Hb : forall path, parseBody (post path body)
             = Fulfilled (obj [("name", JStr "alice"); ("password", JStr "secret1")])).
  { intros path. unfold parseBody. simpl. rewrite Hbody. reflexivity. }
  assert (Hw : parseBody (post "/login" wrong_body)
             = Fulfilled (obj [("name", JStr "alice"); ("password", JStr "wrong")])).
  { unfold parseBody. simpl. rewrite Hwrong. reflexivity. }
  rewrite (register_validated _ _ (Hb "/register")); try reflexivity.
  rewrite (login_validated _ _ (Hb "/login")); try reflexivity.
  rewrite (login_validated _ _ Hw); try reflexivity.
  change (get_prop (obj [("name", JStr "alice"); ("password", JStr "secret1")]) "name")
    with (JStr "alice").
  change (get_prop (obj [("name", JStr "alice"); ("password", JStr "secret1")]) "password")
    with (JStr "secret1").
  change (get_prop (obj [("name", JStr "alice"); ("password", JStr "wrong")]) "name")
    with (JStr "alice").
  change (get_prop (obj [("name", JStr "alice"); ("password", JStr "wrong")]) "password")
    with (JStr "wrong").
  rewrite (run_register_new "alice" "secret1" _ w _ Hup Ht);
    try reflexivity; try assumption; [| unfold INT_MAX; cbn [auto_increment]; lia].
  eexists. split; [reflexivity |].
  set (u := new_user {| rows := []; auto_increment := 1 |} (now (db w)) "alice"
              (bcrypt_hashpw "secret1" 12 (entropy w))
              (get_prop (obj [("name", JStr "alice"); ("password", JStr "secret1")]) "email")).
  assert (Hrows : filter (has_name "alice") ([] ++ [u]) = [u]).
  { simpl. unfold has_name. simpl. rewrite Hrefl. reflexivity. }
  split.
  - erewrite run_login_known; [| exact Hup | reflexivity | exact Hrows].
    simpl. rewrite Hbad. reflexivity.
  - erewrite run_login_known; [| exact Hup | reflexivity | exact Hrows].
    simpl. rewrite Hright. reflexivity.
Qed.

End Properties.

(* ================================================================== *)
(** ** Further properties of index.js *)

Section Coverage.
Context {P : Platform}.

#[local] Open Scope list_scope.

(** *** Every request is answered *)

Lemma ends_bind {A B : Type} (Q : A -> Prop) (Q' : B -> Prop) (throws : bool)
  (m : Async A) (f : A -> Async B) :
  ends Q throws m -> (forall a, Q a -> ends Q' throws (f a)) ->
  ends Q' throws (bind m f).
Proof.
  intros H Hf. induction H; simpl; try (constructor; auto; fail). auto.
Qed.

Lemma ends_try_catch {A : Type} (Q : A -> Prop) (m : Async A) (h : JsError -> Async A) :
  ends Q true m -> (forall e, ends Q false (h e)) -> ends Q false (try_catch m h).
Proof.
  intros H Hh. induction H; simpl; try (constructor; auto; fail). auto.
Qed.

Lemma ends_await {A : Type} (Q : A -> Prop) (p : Settled A) :
  (forall a, p = Fulfilled a -> Q a) -> ends Q true (await p).
Proof. destruct p; simpl; intros H; constructor; auto. Qed.

Lemma run_ends {A : Type} (Q : A -> Prop) (m : Async A) :
  ends Q false m ->
  forall w o w', run m w = Some (o, w') -> exists a, o = Returned a /\ Q a.
Proof.
  intros H. induction H as [a Ha | e He | | sql ps k _ IH | k _ IH | d n k _ IH
                            | l k _ IH | p k _ IH]; intros w o w' Hrun; simpl in Hrun.
  - inversion Hrun. eauto.
  - discriminate.
  - discriminate.
  - destruct (pool_execute sql ps (db w)) as [[r d] |]; [| discriminate]. eauto.
  - eauto.
  - destruct (bcrypt_hash d n (entropy w)); eauto.
  - eauto.
  - eauto.
Qed.

Lemma ends_destructure (v : JsVal) : ends (fun _ => True) true (destructure v).
Proof. destruct v; constructor; auto. Qed.

Lemma ends_modelled {A : Type} (o : option A) : ends (fun _ => True) true (modelled o).
Proof. destruct o; constructor; auto. Qed.

Lemma ends_execute_any (sql : Sql) (ps : list JsVal) :
  ends (fun _ => True) true (execute sql ps).
Proof. constructor. intros r. apply ends_await. auto. Qed.

Lemma ends_hash_any (d : JsVal) (n : Z) : ends (fun _ => True) true (hash d n).
Proof. constructor. intros r. apply ends_await. auto. Qed.

Lemma ends_console_error (throws : bool) (text : string) (e : JsError) :
  ends (fun _ => True) throws (console_error text e).
Proof. constructor. constructor. auto. Qed.

Ltac shape :=
  split;
  [ repeat split; reflexivity
  | first
      [ left; eexists; repeat split; try reflexivity; simpl; tauto
      | right; left; eexists; repeat split; try reflexivity; simpl; tauto
      | right; right; eexists; repeat split; try reflexivity; simpl; tauto ] ].

Ltac ends_step :=
  lazymatch goal with
  | |- ends _ _ (try_catch _ _) => apply ends_try_catch; [| intros ?]
  | |- ends _ _ (bind (await _) _) =>
      eapply ends_bind; [apply ends_await; intros; exact I | intros ? _]
  | |- ends _ _ (bind (destructure _) _) =>
      eapply ends_bind; [apply ends_destructure | intros ? _]
  | |- ends _ _ (bind (modelled _) _) =>
      eapply ends_bind; [apply ends_modelled | intros ? _]
  | |- ends _ _ (bind (execute _ _) _) =>
      eapply ends_bind; [apply ends_execute_any | intros ? _]
  | |- ends _ _ (bind (hash _ _) _) =>
      eapply ends_bind; [apply ends_hash_any | intros ? _]
  | |- ends _ _ (bind (console_error _ _) _) =>
      eapply ends_bind; [apply ends_console_error | intros ? _]
  | |- ends _ _ (if ?c then _ else _) => destruct c
  | |- ends _ _ (Resolve _) => apply ends_resolve; shape
  | |- ends _ _ _ => cbv zeta
  end.

Lemma handlers_end (req : Request) :
  ends well_formed_answer false (OPTIONS_any req)
  /\ ends well_formed_answer false (POST_register req)
  /\ ends well_formed_answer false (POST_login req)
  /\ ends well_formed_answer false (GET_users req)
  /\ ends well_formed_answer false (DELETE_user req)
  /\ ends well_formed_answer false (PUT_user req)
  /\ ends well_formed_answer false (GET_root req).
Proof.
  unfold OPTIONS_any, POST_register, POST_login, GET_users, DELETE_user, PUT_user,
    GET_root.
  repeat split; repeat ends_step.
Qed.

Lemma assoc_in {A : Type} (k : string) (v : A) (l : list (string * A)) :
  assoc k l = Some v -> In (k, v) l.
Proof.
  induction l as [| [k' v'] l IH]; simpl; [discriminate |].
  destruct (String.eqb_spec k k') as [-> | _]; intros H.
  - inversion H. left. reflexivity.
  - right. apply IH, H.
Qed.

Lemma routes_end (req : Request) (key : string) (handler : Request -> Async Response) :
  assoc key routes = Some handler -> ends well_formed_answer false (handler req).
Proof.
  intros H. apply assoc_in in H.
  destruct (handlers_end req) as [H1 [H2 [H3 [H4 [H5 [H6 H7]]]]]].
  simpl in H.
  repeat (destruct H as [H | H]; [inversion H; subst; assumption |]).
  contradiction.
Qed.

Lemma server_ends (req : Request) : ends well_formed_answer false (server req).
Proof.
  unfold server.
  destruct (assoc (routeKey req) routes) eqn:E1; [apply (routes_end _ _ _ E1) |].
  destruct (assoc (method req ++ " *")%string routes) eqn:E2;
    [apply (routes_end _ _ _ E2) |].
  apply (routes_end req "GET /"). reflexivity.
Qed.


(** X2: every response carries the three CORS headers, and is of one of
    three kinds: a JSON document with [success: true] under status 200 or
    201; a JSON document [{success:false, error}] under status 400, 401,
    404, 409 or 500; or a text under status 200 (landing page and
    preflight). *)
Theorem every_answer_is_well_formed (req : Request) (w w' : World) (r : Response) :
  run (server req) w = Some (Returned r, w') -> cors r /\ answer_shape r.
Proof.
  intros H. destruct (run_ends _ _ (server_ends req) _ _ _ H) as [r' [Heq Hr]].
  inversion Heq. subst r'. exact Hr.
Qed.

(** *** Handlers that only read *)

Lemma with_same_table (d : Db) (t : Table) : user_table d = Some t -> with_table d t = d.
Proof. destruct d. simpl. intros ->. reflexivity. Qed.

Lemma select_keeps_db (sql : Sql) (ps : list JsVal) (d d' : Db) (r : Settled JsVal) :
  is_select sql = true -> pool_execute sql ps d = Some (r, d') -> d' = d.
Proof.
  intros Hsel H. unfold pool_execute in H.
  destruct (reachable d); simpl in H; [| inversion H; reflexivity].
  destruct (user_table d) as [t |] eqn:Ht.
  - destruct sql; try discriminate; simpl in H;
      destruct ps as [| [| | | | n | |  |] [| ? ?]]; simpl in H; try discriminate;
      inversion H; apply with_same_table, Ht.
  - destruct sql; try discriminate; inversion H; reflexivity.
Qed.

Lemma run_reads_only {A : Type} (m : Async A) :
  reads_only m ->
  forall w o w', run m w = Some (o, w') ->
    db w' = db w /\ entropy w' = entropy w /\ listening w' = listening w.
Proof.
  intros H. induction H as [a | e | | sql ps k Hsel _ IH | l k _ IH];
    intros w o w' Hrun; simpl in Hrun.
  - inversion Hrun. auto.
  - inversion Hrun. auto.
  - discriminate.
  - destruct (pool_execute sql ps (db w)) as [[r d] |] eqn:E; [| discriminate].
    apply (select_keeps_db _ _ _ _ _ Hsel) in E. subst d.
    destruct (IH _ _ _ _ Hrun) as [H1 [H2 H3]]. destruct w. auto.
  - destruct (IH _ _ _ Hrun) as [H1 [H2 H3]]. destruct w. auto.
Qed.

Lemma ro_bind {A B : Type} (m : Async A) (f : A -> Async B) :
  reads_only m -> (forall a, reads_only (f a)) -> reads_only (bind m f).
Proof. intros H Hf. induction H; simpl; try (constructor; auto; fail). auto. Qed.

Lemma ro_try_catch {A : Type} (m : Async A) (h : JsError -> Async A) :
  reads_only m -> (forall e, reads_only (h e)) -> reads_only (try_catch m h).
Proof. intros H Hh. induction H; simpl; try (constructor; auto; fail). auto. Qed.

Lemma ro_await {A : Type} (p : Settled A) : reads_only (await p).
Proof. destruct p; constructor. Qed.

Lemma ro_destructure (v : JsVal) : reads_only (destructure v).
Proof. destruct v; constructor. Qed.

Ltac ro_step :=
  lazymatch goal with
  | |- reads_only (try_catch _ _) => apply ro_try_catch; [| intros ?]
  | |- reads_only (bind _ _) => apply ro_bind; [| intros ?]
  | |- reads_only (await _) => apply ro_await
  | |- reads_only (destructure _) => apply ro_destructure
  | |- reads_only (execute _ _) =>
      apply ro_execute; [reflexivity | intros ?; apply ro_await]
  | |- reads_only (console_error _ _) => repeat constructor
  | |- reads_only (if ?c then _ else _) => destruct c
  | |- reads_only (Resolve _) => constructor
  | |- reads_only _ => cbv zeta
  end.

(** X3: a login, a list request, the landing page and the preflight
    never write: whatever they answer, the store, the entropy and the
    listening socket are as before (only the console may have gained a
    line). *)
Theorem reading_handlers_never_write
  (handler : Request -> Async Response) (req : Request) (w w' : World)
  (o : Outcome Response) :
  In handler [POST_login; GET_users; GET_root; OPTIONS_any] ->
  run (handler req) w = Some (o, w') ->
  db w' = db w /\ entropy w' = entropy w /\ listening w' = listening w.
Proof.
  intros Hin Hrun. apply (run_reads_only (handler req)) with (o := o); [| exact Hrun].
  destruct Hin as [<- | [<- | [<- | [<- | []]]]];
    unfold POST_login, GET_users, GET_root, OPTIONS_any; repeat ro_step.
Qed.

(** *** The constraints of the table are kept *)














(** *** Delete and update, from the check of the fields on *)

Lemma truthy_number (z : Z) : z <> 0 -> truthy (JNum z) = true.
Proof. intros H. simpl. apply Z.eqb_neq in H. rewrite H. reflexivity. Qed.

Lemma truthy_string (s : string) : s <> ""%string -> truthy (JStr s) = true.
Proof. intros H. simpl. apply String.eqb_neq in H. rewrite H. reflexivity. Qed.

Lemma delete_validated (req : Request) (fields : JsVal) :
  parseBody req = Fulfilled fields ->
  nullish fields = false ->
  truthy (get_prop fields "id") = true ->
  DELETE_user req = delete_checked (get_prop fields "id").
Proof.
  intros Hbody Hobj Hid. unfold DELETE_user. rewrite Hbody. simpl.
  rewrite (destructure_ok _ Hobj). simpl. rewrite Hid. reflexivity.
Qed.

Lemma update_validated (req : Request) (fields : JsVal) :
  parseBody req = Fulfilled fields ->
  nullish fields = false ->
  truthy (get_prop fields "id") = true ->
  truthy (get_prop fields "email") = true ->
  PUT_user req = update_checked (get_prop fields "id") (get_prop fields "email").
Proof.
  intros Hbody Hobj Hid Hmail. unfold PUT_user. rewrite Hbody. simpl.
  rewrite (destructure_ok _ Hobj). simpl. rewrite Hid, Hmail. reflexivity.
Qed.

Lemma none_matched {A : Type} (f : A -> bool) (l : list A) :
  (Z.of_nat (List.length (filter f l)) =? 0) = negb (existsb f l).
Proof.
  induction l as [| x l IH]; simpl; [reflexivity |].
  destruct (f x); simpl; [reflexivity | exact IH].
Qed.

Lemma run_delete (z : Z) (w : World) (t : Table) :
  reachable (db w) = true -> user_table (db w) = Some t ->
  run (delete_checked (JNum z)) w
    = Some (Returned (if existsb (has_id z) (rows t) then deleted else not_found),
            set_db w (with_table (db w) (without_id z t))).
Proof.
  intros Hup Ht. unfold delete_checked, execute. cbn [bind try_catch run].
  rewrite (pool_execute_on_table _ _ _ t Hup Ht) by discriminate.
  cbn [execute_on await bind try_catch].
  change (strict_eq_num
            (get_prop (ResultSetHeader
                         (Z.of_nat (List.length (filter (has_id z) (rows t)))) 0)
               "affectedRows") 0)
    with (Z.of_nat (List.length (filter (has_id z) (rows t))) =? 0).
  rewrite none_matched. destruct (existsb (has_id z) (rows t)); reflexivity.
Qed.

Lemma run_update (z : Z) (e : string) (w : World) (t : Table) :
  reachable (db w) = true -> user_table (db w) = Some t ->
  fits 100 e = true ->
  run (update_checked (JNum z) (JStr e)) w
    = Some (Returned (if existsb (has_id z) (rows t) then updated else not_found),
            set_db w (with_table (db w) (with_email e z t))).
Proof.
  intros Hup Ht He. unfold update_checked, execute. cbn [bind try_catch run].
  rewrite (pool_execute_on_table _ _ _ t Hup Ht) by discriminate.
  cbn [execute_on]. rewrite He. cbn [negb await bind try_catch].
  change (strict_eq_num
            (get_prop (ResultSetHeader
                         (Z.of_nat (List.length (filter (has_id z) (rows t)))) 0)
               "affectedRows") 0)
    with (Z.of_nat (List.length (filter (has_id z) (rows t))) =? 0).
  rewrite none_matched. destruct (existsb (has_id z) (rows t)); reflexivity.
Qed.

Lemma set_db_twice (w : World) (d d' : Db) : set_db (set_db w d) d' = set_db w d'.
Proof. reflexivity. Qed.

Lemma filter_twice {A : Type} (f : A -> bool) (l : list A) :
  filter f (filter f l) = filter f l.
Proof.
  induction l as [| x l IH]; simpl; [reflexivity |].
  destruct (f x) eqn:E; simpl; [rewrite E, IH |]; auto.
Qed.

Lemma existsb_filter_out {A : Type} (f : A -> bool) (l : list A) :
  existsb f (filter (fun x => negb (f x)) l) = false.
Proof.
  induction l as [| x l IH]; simpl; [reflexivity |].
  destruct (f x) eqn:E; simpl; [| rewrite E]; auto.
Qed.

(** X6: a delete repeated with the same id is answered 404 and changes
    nothing: after DELETE /user for a number other than 0 (whether it was
    answered 200 or 404), the same request is answered 404 and leaves the
    world as the first left it. *)
Theorem delete_twice
  (req again : Request) (fields fields' : JsVal) (z : Z) (w : World) (t : Table) :
  parseBody req = Fulfilled fields -> nullish fields = false ->
  parseBody again = Fulfilled fields' -> nullish fields' = false ->
  get_prop fields "id" = JNum z ->
  get_prop fields' "id" = JNum z ->
  z <> 0 ->
  reachable (db w) = true ->
  user_table (db w) = Some t ->
  exists w1 : World,
    run (DELETE_user req) w
      = Some (Returned (if existsb (has_id z) (rows t) then deleted else not_found), w1)
    /\ run (DELETE_user again) w1 = Some (Returned not_found, w1).
Proof.
  intros Hb Ho Hb' Ho' Hid Hid' Hz Hup Ht.
  rewrite (delete_validated req fields Hb Ho), Hid
    by (rewrite Hid; apply truthy_number, Hz).
  rewrite (delete_validated again fields' Hb' Ho'), Hid'
    by (rewrite Hid'; apply truthy_number, Hz).
  rewrite (run_delete z w t Hup Ht). eexists. split; [reflexivity |].
  rewrite (run_delete z _ (without_id z t)); [| exact Hup | reflexivity].
  unfold without_id at 1. cbn [rows]. rewrite existsb_filter_out.
  rewrite set_db_twice. unfold without_id. cbn [rows auto_increment].
  rewrite filter_twice. reflexivity.
Qed.

Lemma update_twice_rows (e : string) (z : Z) (l : list User) :
  map (fun u => if has_id z u then set_email e u else u)
    (map (fun u => if has_id z u then set_email e u else u) l)
  = map (fun u => if has_id z u then set_email e u else u) l.
Proof.
  rewrite map_map. apply map_ext. intros u.
  destruct (has_id z u) eqn:E; [| rewrite E; reflexivity].
  unfold has_id in *. simpl. rewrite E. reflexivity.
Qed.

Lemma update_keeps_ids (e : string) (z : Z) (l : list User) :
  existsb (has_id z) (map (fun u => if has_id z u then set_email e u else u) l)
  = existsb (has_id z) l.
Proof.
  induction l as [| u l IH]; simpl; [reflexivity |]. rewrite IH. f_equal.
  destruct (has_id z u) eqn:E; [| exact E]. exact E.
Qed.

(** X7: an update repeated with the same id and email is answered as the
    first was (200 when a row has the id, also when the email it sets is
    the one already stored; 404 otherwise) and leaves the world as the
    first left it. *)
Theorem update_twice
  (req again : Request) (fields fields' : JsVal) (z : Z) (e : string)
  (w : World) (t : Table) :
  parseBody req = Fulfilled fields -> nullish fields = false ->
  parseBody again = Fulfilled fields' -> nullish fields' = false ->
  get_prop fields "id" = JNum z -> get_prop fields' "id" = JNum z ->
  get_prop fields "email" = JStr e -> get_prop fields' "email" = JStr e ->
  z <> 0 -> e <> ""%string -> fits 100 e = true ->
  reachable (db w) = true ->
  user_table (db w) = Some t ->
  exists w1 : World,
    run (PUT_user req) w
      = Some (Returned (if existsb (has_id z) (rows t) then updated else not_found), w1)
    /\ run (PUT_user again) w1
       = Some (Returned (if existsb (has_id z) (rows t) then updated else not_found), w1).
Proof.
  intros Hb Ho Hb' Ho' Hid Hid' Hm Hm' Hz He Hfit Hup Ht.
  rewrite (update_validated req fields Hb Ho), Hid, Hm
    by (rewrite ?Hid, ?Hm; auto using truthy_number, truthy_string).
  rewrite (update_validated again fields' Hb' Ho'), Hid', Hm'
    by (rewrite ?Hid', ?Hm'; auto using truthy_number, truthy_string).
  rewrite (run_update z e w t Hup Ht Hfit). eexists. split; [reflexivity |].
  rewrite (run_update z e _ (with_email e z t)); [| exact Hup | reflexivity | exact Hfit].
  unfold with_email at 1. cbn [rows]. rewrite update_keeps_ids.
  rewrite set_db_twice. unfold with_email. cbn [rows auto_increment].
  rewrite update_twice_rows. reflexivity.
Qed.

Lemma run_list (req : Request) (w : World) (t : Table) :
  reachable (db w) = true -> user_table (db w) = Some t ->
  run (GET_users req) w
    = Some (Returned (sendJson 200 (obj [("success", JBool true);
                                         ("users", JArr (map row_listed (rows t)))])), w).
Proof.
  intros Hup Ht. unfold GET_users, execute. cbn [bind try_catch run].
  rewrite (pool_execute_on_table _ _ _ t Hup Ht) by discriminate.
  cbn [execute_on]. rewrite (same_table w t Ht). reflexivity.
Qed.

(** X8: the list shows every row of the table, in the order of the
    table, each with its id, name, email (null when none is stored) and
    created_at, and never with its password; the world is as before. *)
Theorem list_shows_rows_without_passwords (req : Request) (w : World) (t : Table) :
  reachable (db w) = true ->
  user_table (db w) = Some t ->
  exists users : list JsVal,
    run (GET_users req) w
      = Some (Returned (sendJson 200 (obj [("success", JBool true);
                                           ("users", JArr users)])), w)
    /\ List.length users = List.length (rows t)
    /\ forall (i : nat) (u : User),
         nth_error (rows t) i = Some u ->
         exists row,
           nth_error users i = Some row
           /\ get_prop row "id" = JNum (u_id u)
           /\ get_prop row "name" = JStr (u_name u)
           /\ get_prop row "email" = nullable (u_email u)
           /\ get_prop row "created_at" = JDate (u_created_at u)
           /\ get_prop row "password" = JUndefined.
Proof.
  intros Hup Ht. exists (map row_listed (rows t)).
  split; [apply (run_list req w t Hup Ht) |]. split; [apply length_map |].
  intros i u Hi. exists (row_listed u). split.
  - rewrite nth_error_map, Hi. reflexivity.
  - repeat split; reflexivity.
Qed.

(** X9: after an update answered 200, the list shows the new email on
    every row of that id and shows the other rows as they were. *)
Theorem update_then_list
  (req list_req : Request) (fields : JsVal) (z : Z) (e : string)
  (w : World) (t : Table) :
  parseBody req = Fulfilled fields -> nullish fields = false ->
  get_prop fields "id" = JNum z ->
  get_prop fields "email" = JStr e ->
  z <> 0 -> e <> ""%string -> fits 100 e = true ->
  reachable (db w) = true ->
  user_table (db w) = Some t ->
  existsb (has_id z) (rows t) = true ->
  exists (w1 : World) (users : list JsVal),
    run (PUT_user req) w = Some (Returned updated, w1)
    /\ run (GET_users list_req) w1
       = Some (Returned (sendJson 200 (obj [("success", JBool true);
                                            ("users", JArr users)])), w1)
    /\ forall (i : nat) (u : User),
         nth_error (rows t) i = Some u ->
         nth_error users i
         = Some (if u_id u =? z then row_listed (set_email e u) else row_listed u)
         /\ (u_id u = z ->
             get_prop (row_listed (set_email e u)) "email" = JStr e).
Proof.
  intros Hb Ho Hid Hm Hz He Hfit Hup Ht Hex.
  rewrite (update_validated req fields Hb Ho), Hid, Hm
    by (rewrite ?Hid, ?Hm; auto using truthy_number, truthy_string).
  rewrite (run_update z e w t Hup Ht Hfit), Hex.
  eexists. eexists. split; [reflexivity |]. split.
  - apply run_list; [exact Hup | reflexivity].
  - intros i u Hi. split; [| reflexivity].
    unfold with_email. cbn [rows]. rewrite map_map, nth_error_map, Hi. simpl.
    unfold has_id. destruct (u_id u =? z); reflexivity.
Qed.

(** *** Register and login *)

(** X10: a registration that passes the checks, for a name no row has,
    is answered 201 with the counter of the table as [userId], and the
    table gains exactly one row, at its end: that id, the name, the bcrypt
    hash of the password at cost 12 (not the password), the email or
    NULL, and the time of the store.  The rows that were there stay as
    they were. *)
Theorem register_appends_one_row
  (req : Request) (fields : JsVal) (n p : string) (w : World) (t : Table) :
  parseBody req = Fulfilled fields ->
  nullish fields = false ->
  get_prop fields "name" = JStr n ->
  n <> ""%string ->
  get_prop fields "password" = JStr p ->
  (6 <= String.length p)%nat ->
  fits 100 n = true ->
  storable_email (get_prop fields "email") = true ->
  fits 255 (bcrypt_hashpw p 12 (entropy w)) = true ->
  reachable (db w) = true ->
  user_table (db w) = Some t ->
  existsb (has_name n) (rows t) = false ->
  auto_increment t <= INT_MAX ->
  exists w' : World,
    run (POST_register req) w = Some (Returned (created (auto_increment t)), w')
    /\ user_table (db w')
       = Some {| rows := rows t
                         ++ [{| u_id := auto_increment t;
                                u_name := n;
                                u_password := bcrypt_hashpw p 12 (entropy w);
                                u_email := stored_email (get_prop fields "email");
                                u_created_at := now (db w) |}];
                 auto_increment := auto_increment t + 1 |}
    /\ entropy w' = N.succ (entropy w)
    /\ console w' = console w.
Proof.
  intros Hb Ho Hname Hn Hpw Hlen Hfit Hmail Hhash Hup Ht Hex Hai.
  assert (Hp : p <> ""%string) by (intros ->; simpl in Hlen; lia).
  rewrite (register_validated req fields Hb Ho);
    [| rewrite Hname; apply truthy_string, Hn
     | rewrite Hpw; apply truthy_string, Hp
     | rewrite Hpw; apply long_enough, Hlen].
  rewrite Hname, Hpw.
  rewrite (run_register_new n p _ w t Hup Ht Hex Hfit Hmail Hhash Hai).
  eexists. split; [reflexivity |]. repeat split.
Qed.

(** X11: after such a registration, a login with the same name and
    password is answered 200 with the same id, provided bcrypt verifies
    the password against the hash it made and the collation identifies
    the name with itself. *)
Theorem register_then_login
  (req login : Request) (fields fields' : JsVal) (n p : string)
  (w : World) (t : Table) :
  parseBody req = Fulfilled fields -> nullish fields = false ->
  parseBody login = Fulfilled fields' -> nullish fields' = false ->
  get_prop fields "name" = JStr n -> get_prop fields' "name" = JStr n ->
  n <> ""%string ->
  get_prop fields "password" = JStr p -> get_prop fields' "password" = JStr p ->
  (6 <= String.length p)%nat ->
  fits 100 n = true ->
  storable_email (get_prop fields "email") = true ->
  fits 255 (bcrypt_hashpw p 12 (entropy w)) = true ->
  reachable (db w) = true ->
  user_table (db w) = Some t ->
  existsb (has_name n) (rows t) = false ->
  auto_increment t <= INT_MAX ->
  name_eq n n = true ->
  bcrypt_checkpw p (bcrypt_hashpw p 12 (entropy w)) = true ->
  exists w' : World,
    run (POST_register req) w = Some (Returned (created (auto_increment t)), w')
    /\ run (POST_login login) w' = Some (Returned (logged_in (auto_increment t)), w').
Proof.
  intros Hb Ho Hb' Ho' Hname Hname' Hn Hpw Hpw' Hlen Hfit Hmail Hhash Hup Ht Hex Hai
    Hrefl Hverify.
  assert (Hp : p <> ""%string) by (intros ->; simpl in Hlen; lia).
  rewrite (register_validated req fields Hb Ho);
    [| rewrite Hname; apply truthy_string, Hn
     | rewrite Hpw; apply truthy_string, Hp
     | rewrite Hpw; apply long_enough, Hlen].
  rewrite (login_validated login fields' Hb' Ho');
    [| rewrite Hname'; apply truthy_string, Hn
     | rewrite Hpw'; apply truthy_string, Hp].
  rewrite Hname, Hpw, Hname', Hpw'.
  rewrite (run_register_new n p _ w t Hup Ht Hex Hfit Hmail Hhash Hai).
  eexists. split; [reflexivity |].
  set (u := new_user t (now (db w)) n (bcrypt_hashpw p 12 (entropy w))
              (get_prop fields "email")).
  assert (Hrows : filter (has_name n) (rows t ++ [u]) = [u]).
  { rewrite filter_app, (existsb_false_filter _ _ Hex). simpl.
    unfold has_name. simpl. rewrite Hrefl. reflexivity. }
  erewrite run_login_known; [| exact Hup | reflexivity | exact Hrows].
  simpl. rewrite Hverify. reflexivity.
Qed.

Lemma existsb_filter_false {A : Type} (f g : A -> bool) (l : list A) :
  existsb f l = false -> existsb f (filter g l) = false.
Proof.
  induction l as [| x l IH]; simpl; [reflexivity |]. intros H.
  apply orb_false_iff in H as [Hx Hl]. destruct (g x); simpl; [rewrite Hx |]; auto.
Qed.

(** X12: the id of a deleted row is not given out again.  On a table
    within its constraints, after a row is deleted, a registration that
    succeeds gets the counter as its id, which is greater than the id of
    every row the table held, the deleted one included. *)
Theorem deleted_id_is_not_reused
  (del reg : Request) (fields fields' : JsVal) (z : Z) (n p : string)
  (w : World) (t : Table) :
  parseBody del = Fulfilled fields -> nullish fields = false ->
  get_prop fields "id" = JNum z ->
  existsb (has_id z) (rows t) = true ->
  parseBody reg = Fulfilled fields' -> nullish fields' = false ->
  get_prop fields' "name" = JStr n -> n <> ""%string ->
  get_prop fields' "password" = JStr p -> (6 <= String.length p)%nat ->
  fits 100 n = true ->
  storable_email (get_prop fields' "email") = true ->
  fits 255 (bcrypt_hashpw p 12 (entropy w)) = true ->
  reachable (db w) = true ->
  user_table (db w) = Some t ->
  table_ok t ->
  existsb (has_name n) (rows t) = false ->
  auto_increment t <= INT_MAX ->
  exists (w1 w2 : World),
    run (DELETE_user del) w = Some (Returned deleted, w1)
    /\ run (POST_register reg) w1 = Some (Returned (created (auto_increment t)), w2)
    /\ z < auto_increment t
    /\ forall u, In u (rows t) -> u_id u < auto_increment t.
Proof.
  intros Hb Ho Hid Hex Hb' Ho' Hname Hn Hpw Hlen Hfit Hmail Hhash Hup Ht Hok Hfree Hai.
  assert (Hids : forall u, In u (rows t) -> u_id u < auto_increment t).
  { intros u Hu. destruct Hok as [_ [_ [_ Hrows]]]. destruct (Hrows u Hu) as [Hu1 _]. lia. }
  assert (Hz : z <> 0).
  { apply existsb_exists in Hex as [u [Hu Hzu]]. apply has_id_true in Hzu.
    destruct Hok as [_ [_ [_ Hrows]]]. destruct (Hrows u Hu) as [Hu1 _]. lia. }
  assert (Hp : p <> ""%string) by (intros ->; simpl in Hlen; lia).
  rewrite (delete_validated del fields Hb Ho), Hid
    by (rewrite Hid; apply truthy_number, Hz).
  rewrite (run_delete z w t Hup Ht), Hex.
  rewrite (register_validated reg fields' Hb' Ho');
    [| rewrite Hname; apply truthy_string, Hn
     | rewrite Hpw; apply truthy_string, Hp
     | rewrite Hpw; apply long_enough, Hlen].
  rewrite Hname, Hpw.
  eexists. eexists. split; [reflexivity |]. split.
  - rewrite (run_register_new n p _ _ (without_id z t));
      try assumption; try reflexivity.
    unfold without_id. cbn [rows]. apply existsb_filter_false, Hfree.
  - split; [| exact Hids].
    apply existsb_exists in Hex as [u [Hu Hzu]]. apply has_id_true in Hzu.
    rewrite <- Hzu. apply Hids, Hu.
Qed.

(** With a string for a password a login has three outcomes, and the two
    failures are answered alike. *)

(** X13: a login whose name and password are non-empty strings, on a
    store that is up.  When no row has the name, and when the first row
    of the name does not verify the password, the answer is the same 401
    [{success:false, error:'Invalid credentials'}] and the world is as
    before; when it verifies, the answer is 200 with that row's id. *)
Theorem login_with_string_password
  (req : Request) (fields : JsVal) (n p : string) (w : World) (t : Table) :
  parseBody req = Fulfilled fields -> nullish fields = false ->
  get_prop fields "name" = JStr n -> n <> ""%string ->
  get_prop fields "password" = JStr p -> p <> ""%string ->
  reachable (db w) = true ->
  user_table (db w) = Some t ->
  (existsb (has_name n) (rows t) = false ->
     run (POST_login req) w
       = Some (Returned (sendJson 401 (failure "Invalid credentials")), w))
  /\ (forall u others,
        filter (has_name n) (rows t) = u :: others ->
        bcrypt_checkpw p (u_password u) = false ->
        run (POST_login req) w
          = Some (Returned (sendJson 401 (failure "Invalid credentials")), w))
  /\ (forall u others,
        filter (has_name n) (rows t) = u :: others ->
        bcrypt_checkpw p (u_password u) = true ->
        run (POST_login req) w = Some (Returned (logged_in (u_id u)), w)).
Proof.
  intros Hb Ho Hname Hn Hpw Hp Hup Ht.
  rewrite (login_validated req fields Hb Ho);
    [| rewrite Hname; apply truthy_string, Hn
     | rewrite Hpw; apply truthy_string, Hp].
  rewrite Hname, Hpw. split; [| split].
  - apply run_login_unknown; assumption.
  - intros u others Hrows Hwrong.
    rewrite (run_login_known n _ w t u others Hup Ht Hrows). simpl.
    rewrite Hwrong. reflexivity.
  - intros u others Hrows Hright.
    rewrite (run_login_known n _ w t u others Hup Ht Hrows). simpl.
    rewrite Hright. reflexivity.
Qed.

(** X14: a registration whose password is present and is not a string,
    and is not shorter than 6 by the handler's test (a number, [true], an
    array or object of length 6 or more), for a name no row has:
    [bcrypt.hash] rejects it, the answer is 500, and nothing is
    inserted. *)
Theorem register_non_string_password
  (req : Request) (fields : JsVal) (n : string) (w : World) (t : Table) :
  parseBody req = Fulfilled fields -> nullish fields = false ->
  get_prop fields "name" = JStr n -> n <> ""%string ->
  truthy (get_prop fields "password") = true ->
  (forall s, get_prop fields "password" <> JStr s) ->
  js_lt (get_prop (get_prop fields "password") "length") 6 = Some false ->
  reachable (db w) = true ->
  user_table (db w) = Some t ->
  existsb (has_name n) (rows t) = false ->
  exists message : string,
    run (POST_register req) w
      = Some (Returned internal_server_error,
              print w (Stderr "Register error:" (Error message))).
Proof.
  intros Hb Ho Hname Hn Hpw Hns Hlen Hup Ht Hex.
  rewrite (register_validated req fields Hb Ho); auto;
    [| rewrite Hname; apply truthy_string, Hn].
  rewrite Hname. unfold register_checked, execute. cbn [bind try_catch].
  rewrite (run_select_by_name _ row_id n _ w t Hup Ht) by (left; split; reflexivity).
  cbn [await bind try_catch]. rewrite length_array_gt.
  rewrite (existsb_false_filter _ _ Hex).
  cbn [map List.length Nat.eqb negb modelled bind try_catch].
  unfold hash. cbn [bind try_catch run].
  destruct (get_prop fields "password") as [| | b | z | s | l | o | d];
    try discriminate; try (eexists; reflexivity).
  exfalso. apply (Hns s). reflexivity.
Qed.

(** *** Bodies that are not objects, streams that fail, stores that are down *)


(** X16: a body that decodes to a value that is not an object and not
    [null] (a number, a string, a boolean, an array) has none of the
    fields: each of the four handlers answers its 400 for missing fields,
    and the world is as before. *)
Theorem fieldless_body_answers_400 (req : Request) (v : JsVal) (w : World) :
  parseBody req = Fulfilled v ->
  nullish v = false ->
  (forall props, v <> JObj props) ->
  run (POST_register req) w
    = Some (Returned (sendJson 400 (failure "Name and password required")), w)
  /\ run (POST_login req) w
     = Some (Returned (sendJson 400 (failure "Name and password required")), w)
  /\ run (DELETE_user req) w
     = Some (Returned (sendJson 400 (failure "User ID required")), w)
  /\ run (PUT_user req) w
     = Some (Returned (sendJson 400 (failure "ID and new email required")), w).
Proof.
  intros Hb Ho Hv. unfold POST_register, POST_login, DELETE_user, PUT_user.
  rewrite Hb. simpl. rewrite (destructure_ok _ Ho). simpl.
  destruct v as [| | b | z | s | l | o | d]; try discriminate;
    try (repeat split; reflexivity).
  exfalso. apply (Hv o). reflexivity.
Qed.

(** X17: when the stream of the request fails with an error, the promise
    of [parseBody] rejects with that error and each of the four handlers
    logs it and answers 500. *)
Theorem stream_error_answers_500 (req : Request) (e : JsError) (w : World) :
  incoming req = Errored e ->
  run (POST_register req) w
    = Some (Returned internal_server_error, print w (Stderr "Register error:" e))
  /\ run (POST_login req) w
     = Some (Returned internal_server_error, print w (Stderr "Login error:" e))
  /\ run (DELETE_user req) w
     = Some (Returned internal_server_error, print w (Stderr "Delete error:" e))
  /\ run (PUT_user req) w
     = Some (Returned internal_server_error, print w (Stderr "Update error:" e)).
Proof.
  intros Hin. unfold POST_register, POST_login, DELETE_user, PUT_user, parseBody.
  rewrite Hin. repeat split; reflexivity.
Qed.

Lemma set_db_same (w : World) : set_db w (db w) = w.
Proof. destruct w. reflexivity. Qed.

Lemma pool_execute_down (sql : Sql) (ps : list JsVal) (d : Db) (e : JsError) :
  reachable d = false /\ e = MysqlError "ECONNREFUSED"
  \/ reachable d = true /\ user_table d = None /\ e = MysqlError "ER_NO_SUCH_TABLE"
     /\ sql <> CREATE_TABLE_IF_NOT_EXISTS_user ->
  pool_execute sql ps d = Some (Rejected e, d).
Proof.
  unfold pool_execute. intros [[-> ->] | [-> [-> [-> Hsql]]]]; simpl; [reflexivity |].
  destruct sql; try reflexivity. contradiction.
Qed.

Lemma run_rejected_statement (sql : Sql) (ps : list JsVal) (w : World) (e : JsError)
  (body : JsVal -> Async Response) (text : string) :
  pool_execute sql ps (db w) = Some (Rejected e, db w) ->
  run (try_catch (result <- execute sql ps ;; body result)
         (fun err =>
            console_error text err ;;;
            Resolve (sendJson 500 (failure "Internal server error")))) w
    = Some (Returned internal_server_error, print w (Stderr text e)).
Proof.
  intros H. unfold execute. cbn [bind try_catch run]. rewrite H.
  rewrite set_db_same. reflexivity.
Qed.

(** X18: when the store refuses connections, or accepts them and has no
    table [user], every request that gets as far as a statement is
    answered 500, the error is logged, and the store is as before: the
    list request always, the others once their fields pass the checks. *)
Theorem store_failure_answers_500 (req : Request) (w : World) :
  reachable (db w) = false \/ user_table (db w) = None ->
  exists e : JsError,
    run (GET_users req) w
      = Some (Returned internal_server_error, print w (Stderr "Fetch users error:" e))
    /\ forall fields : JsVal,
         parseBody req = Fulfilled fields ->
         nullish fields = false ->
         (truthy (get_prop fields "id") = true ->
            run (DELETE_user req) w
              = Some (Returned internal_server_error,
                      print w (Stderr "Delete error:" e)))
         /\ (truthy (get_prop fields "id") = true ->
             truthy (get_prop fields "email") = true ->
             run (PUT_user req) w
               = Some (Returned internal_server_error,
                       print w (Stderr "Update error:" e)))
         /\ (truthy (get_prop fields "name") = true ->
             truthy (get_prop fields "password") = true ->
             run (POST_login req) w
               = Some (Returned internal_server_error,
                       print w (Stderr "Login error:" e)))
         /\ (truthy (get_prop fields "name") = true ->
             truthy (get_prop fields "password") = true ->
             js_lt (get_prop (get_prop fields "password") "length") 6 = Some false ->
             run (POST_register req) w
               = Some (Returned internal_server_error,
                       print w (Stderr "Register error:" e))).
Proof.
  intros Hdown.
  assert (Hrej : exists e, forall sql ps, sql <> CREATE_TABLE_IF_NOT_EXISTS_user ->
                   pool_execute sql ps (db w) = Some (Rejected e, db w)).
  { destruct (reachable (db w)) eqn:Hup.
    - destruct Hdown as [Hdown | Hdown]; [discriminate |].
      exists (MysqlError "ER_NO_SUCH_TABLE"). intros sql ps Hsql.
      apply pool_execute_down. right. auto.
    - exists (MysqlError "ECONNREFUSED"). intros sql ps Hsql.
      apply pool_execute_down. left. auto. }
  destruct Hrej as [e Hrej]. exists e. split.
  - unfold GET_users. apply run_rejected_statement. apply Hrej. discriminate.
  - intros fields Hb Ho. repeat split.
    + intros Hid. rewrite (delete_validated req fields Hb Ho Hid).
      unfold delete_checked. apply run_rejected_statement. apply Hrej. discriminate.
    + intros Hid Hm. rewrite (update_validated req fields Hb Ho Hid Hm).
      unfold update_checked. apply run_rejected_statement. apply Hrej. discriminate.
    + intros Hn Hp. rewrite (login_validated req fields Hb Ho Hn Hp).
      unfold login_checked. apply run_rejected_statement. apply Hrej. discriminate.
    + intros Hn Hp Hlen. rewrite (register_validated req fields Hb Ho Hn Hp Hlen).
      unfold register_checked. apply run_rejected_statement. apply Hrej. discriminate.
Qed.

(** *** Preflight and schema *)

(** X19: a request whose method is OPTIONS is answered 200 with an empty
    text/plain body whatever its path, and the world is as before: no
    key of [routes] other than ['OPTIONS *'] starts with that method. *)
Theorem preflight_on_any_path (req : Request) (w : World) :
  method req = "OPTIONS"%string ->
  run (server req) w = Some (Returned (sendResponse 200 (JStr "") "text/plain"), w).
Proof.
  intros Hm. unfold server, routeKey. rewrite Hm.
  destruct (assoc ("OPTIONS" ++ " " ++ pathname req)%string routes) as [h |] eqn:E.
  - apply assoc_in in E. simpl in E.
    repeat (destruct E as [E | E]; [inversion E; subst; reflexivity |]).
    contradiction.
  - reflexivity.
Qed.

(** X20: [initDatabase] may run at every start: it returns whatever
    the store answers, it leaves a table that exists as it is, rows and
    counter, and run a second time it changes nothing in the store. *)
Theorem initDatabase_is_idempotent (w : World) :
  exists w1 w2 : World,
    run initDatabase w = Some (Returned tt, w1)
    /\ run initDatabase w1 = Some (Returned tt, w2)
    /\ db w2 = db w1
    /\ (forall t, user_table (db w) = Some t -> db w1 = db w)
    /\ listening w1 = listening w.
Proof.
  destruct w as [[re cg ut nw] en co li].
  unfold initDatabase, execute. cbn [bind try_catch run]. unfold pool_execute. simpl.
  destruct re; simpl; [| eexists; eexists; repeat split; reflexivity].
  destruct cg; simpl; [| eexists; eexists; repeat split; reflexivity].
  destruct ut as [t |]; simpl.
  - eexists. eexists. repeat split; reflexivity.
  - eexists. eexists. repeat split; try reflexivity. intros t Ht. discriminate.
Qed.

End Coverage.

(* ================================================================== *)
(** ** Closed examples on the concrete platform *)

#[local] Existing Instance Demo.platform.

(** *** C1 *)

(** C1 fails as stated: a register request whose body is the cut-off
    text [{"name":"alice"] is answered 500, which is no 4xx status. *)
Lemma cut_off_body_is_answered_500 :
  JSON_parse (Demo.quoted "{'name':'alice'") = None
  /\ run (server (Demo.request "POST" "/register" "{'name':'alice'")) Demo.fresh
     = Some (Returned internal_server_error,
             print Demo.fresh (Stderr "Register error:" (Error "Invalid JSON")))
  /\ statusCode internal_server_error = 500
  /\ ~ (400 <= statusCode internal_server_error <= 499).
Proof.
  repeat split; try reflexivity. simpl. lia.
Qed.

(** The theorem of C1 at that request. *)
Lemma malformed_body_witness :
  run (POST_register (Demo.request "POST" "/register" "{'name':'alice'")) Demo.fresh
    = Some (Returned internal_server_error,
            print Demo.fresh (Stderr "Register error:" (Error "Invalid JSON")))
  /\ run (POST_login (Demo.request "POST" "/register" "{'name':'alice'")) Demo.fresh
    = Some (Returned internal_server_error,
            print Demo.fresh (Stderr "Login error:" (Error "Invalid JSON")))
  /\ run (DELETE_user (Demo.request "POST" "/register" "{'name':'alice'")) Demo.fresh
    = Some (Returned internal_server_error,
            print Demo.fresh (Stderr "Delete error:" (Error "Invalid JSON")))
  /\ run (PUT_user (Demo.request "POST" "/register" "{'name':'alice'")) Demo.fresh
    = Some (Returned internal_server_error,
            print Demo.fresh (Stderr "Update error:" (Error "Invalid JSON"))).
Proof.
  apply (malformed_body_answers_500
           (Demo.request "POST" "/register" "{'name':'alice'")
           (Demo.quoted "{'name':'alice'") Demo.fresh); reflexivity.
Defined.

(** *** C2 *)

(** C2 fails as stated: with a server that accepts connections and
    denies CREATE, the start ends with the process listening on port
    8000 and no table in the store. *)
Lemma listens_without_schema :
  exists w : World,
    run (main JUndefined) Demo.no_schema = Some (Returned tt, w)
    /\ listening w = Some (JNum 8000)
    /\ user_table (db w) = None
    /\ console w
       = [connected;
          Stderr "❌ Database initialization failed:"
            (MysqlError "ER_TABLEACCESS_DENIED_ERROR");
          running JUndefined].
Proof. eexists. repeat split; reflexivity. Qed.

(** *** C10 *)

(** The theorem of C10 at the body [{"id":0}], with alice in the table. *)
Lemma falsy_id_witness :
  run (DELETE_user (Demo.request "DELETE" "/user" "{'id':0}")) Demo.with_alice
    = Some (Returned (sendJson 400 (failure "User ID required")), Demo.with_alice)
  /\ run (PUT_user (Demo.request "DELETE" "/user" "{'id':0}")) Demo.with_alice
    = Some (Returned (sendJson 400 (failure "ID and new email required")),
            Demo.with_alice).
Proof.
  apply (falsy_id_answers_400 (Demo.request "DELETE" "/user" "{'id':0}")
           (obj [("id", JNum 0)]) Demo.with_alice); reflexivity.
Defined.

(** *** C8 *)

(** C8 fails as stated: the body [{"id":0}] supplies an id, no row has
    id 0, and the answer is 400, not 404. *)
Lemma delete_id_zero_is_answered_400 :
  parseBody (Demo.request "DELETE" "/user" "{'id':0}") = Fulfilled (obj [("id", JNum 0)])
  /\ (forall u, In u [Demo.alice] -> u_id u <> 0)
  /\ run (server (Demo.request "DELETE" "/user" "{'id':0}")) Demo.with_alice
     = Some (Returned (sendJson 400 (failure "User ID required")), Demo.with_alice)
  /\ statusCode (sendJson 400 (failure "User ID required")) <> 404.
Proof.
  repeat split; try reflexivity.
  - intros u [<- | []]. discriminate.
  - discriminate.
Qed.

(** The theorem of C8 at the ids 7, which no row has, and 1, alice's. *)
Lemma delete_by_id_witness :
  run (DELETE_user (Demo.request "DELETE" "/user" "{'id':7}")) Demo.with_alice
    = Some (Returned (sendJson 404 (failure "User not found")), Demo.with_alice)
  /\ exists before after w',
       [Demo.alice] = (before ++ Demo.alice :: after)%list
       /\ w' = set_db Demo.with_alice
                 (with_table (db Demo.with_alice)
                    {| rows := (before ++ after)%list; auto_increment := 2 |})
       /\ run (DELETE_user (Demo.request "DELETE" "/user" "{'id':1}")) Demo.with_alice
          = Some (Returned (sendJson 200 (obj [("success", JBool true);
                                               ("message", JStr "User deleted")])), w')
       /\ (forall v, In v (before ++ after)%list -> u_id v <> 1)
       /\ forall req',
            run (GET_users req') w'
            = Some (Returned
                      (sendJson 200
                         (obj [("success", JBool true);
                               ("users", JArr (map row_listed (before ++ after)%list))])),
                    w').
Proof.
  assert (Hpk : NoDup (map u_id [Demo.alice])).
  { constructor; [intros [] | constructor]. }
  split.
  - apply (delete_by_id (Demo.request "DELETE" "/user" "{'id':7}")
             (obj [("id", JNum 7)]) 7 Demo.with_alice
             {| rows := [Demo.alice]; auto_increment := 2 |});
      try reflexivity; try exact Hpk; try discriminate.
    intros u [<- | []]. discriminate.
  - apply (delete_by_id (Demo.request "DELETE" "/user" "{'id':1}")
             (obj [("id", JNum 1)]) 1 Demo.with_alice
             {| rows := [Demo.alice]; auto_increment := 2 |});
      try reflexivity; try exact Hpk; try discriminate.
    left. reflexivity.
Defined.

(** *** C9 *)

(** C9 fails as stated: an update request on the existing id 1 that
    carries no email is answered 400, and an update request on id 0,
    which no row has, is answered 400 as well, not 404. *)
Lemma update_without_email_is_answered_400 :
  In Demo.alice [Demo.alice] /\ u_id Demo.alice = 1
  /\ run (server (Demo.request "PUT" "/user" "{'id':1}")) Demo.with_alice
     = Some (Returned (sendJson 400 (failure "ID and new email required")),
             Demo.with_alice)
  /\ run (server (Demo.request "PUT" "/user" "{'id':0,'email':'a@b.c'}")) Demo.with_alice
     = Some (Returned (sendJson 400 (failure "ID and new email required")),
             Demo.with_alice)
  /\ statusCode (sendJson 400 (failure "ID and new email required")) <> 200
  /\ statusCode (sendJson 400 (failure "ID and new email required")) <> 404.
Proof.
  repeat split; try reflexivity; try discriminate. left. reflexivity.
Qed.

(** The theorem of C9 at the ids 1, alice's, and 7, which no row has. *)
Lemma update_email_witness :
  (exists before after,
     [Demo.alice] = (before ++ Demo.alice :: after)%list
     /\ run (PUT_user (Demo.request "PUT" "/user" "{'id':1,'email':'a@b.c'}"))
          Demo.with_alice
        = Some (Returned (sendJson 200 (obj [("success", JBool true);
                                             ("message", JStr "Email updated")])),
                set_db Demo.with_alice
                  (with_table (db Demo.with_alice)
                     {| rows := (before ++ set_email "a@b.c" Demo.alice :: after)%list;
                        auto_increment := 2 |}))
     /\ u_email (set_email "a@b.c" Demo.alice) = Some "a@b.c"
     /\ u_id (set_email "a@b.c" Demo.alice) = u_id Demo.alice
     /\ u_name (set_email "a@b.c" Demo.alice) = u_name Demo.alice
     /\ u_password (set_email "a@b.c" Demo.alice) = u_password Demo.alice
     /\ u_created_at (set_email "a@b.c" Demo.alice) = u_created_at Demo.alice)
  /\ run (PUT_user (Demo.request "PUT" "/user" "{'id':7,'email':'a@b.c'}"))
       Demo.with_alice
     = Some (Returned (sendJson 404 (failure "User not found")), Demo.with_alice).
Proof.
  assert (Hpk : NoDup (map u_id [Demo.alice])).
  { constructor; [intros [] | constructor]. }
  split.
  - apply (update_email_by_id (Demo.request "PUT" "/user" "{'id':1,'email':'a@b.c'}")
             (obj [("id", JNum 1); ("email", JStr "a@b.c")]) 1 "a@b.c" Demo.with_alice
             {| rows := [Demo.alice]; auto_increment := 2 |});
      try reflexivity; try exact Hpk; try discriminate.
    left. reflexivity.
  - apply (update_email_by_id (Demo.request "PUT" "/user" "{'id':7,'email':'a@b.c'}")
             (obj [("id", JNum 7); ("email", JStr "a@b.c")]) 7 "a@b.c" Demo.with_alice
             {| rows := [Demo.alice]; auto_increment := 2 |});
      try reflexivity; try exact Hpk; try discriminate.
    intros u [<- | []]. discriminate.
Defined.

(** *** C4 *)

(** C4 fails as stated: the body of the 201 answer is not
    [{success:true, id:1}], it has no [id] at all; and the body of the
    200 answer is not [{success:true, userId:1}]. *)
Lemma scenario_bodies_differ :
  exists (r201 r200 : Response) (w1 : World),
    run (server (Demo.request "POST" "/register" "{'name':'alice','password':'secret1'}"))
      Demo.fresh = Some (Returned r201, w1)
    /\ run (server (Demo.request "POST" "/login" "{'name':'alice','password':'secret1'}"))
         w1 = Some (Returned r200, w1)
    /\ payload r201 <> Stringified (obj [("success", JBool true); ("id", JNum 1)])
    /\ (forall data, payload r201 = Stringified data -> get_prop data "id" = JUndefined)
    /\ payload r200 <> Stringified (obj [("success", JBool true); ("userId", JNum 1)]).
Proof.
  eexists. eexists. eexists. split; [reflexivity |]. split; [reflexivity |].
  split; [discriminate |]. split; [| discriminate].
  intros data H. inversion H. reflexivity.
Qed.

(** The theorem of C4 on the concrete platform. *)
Lemma scenario_alice_witness :
  exists w1 : World,
    run (server (post "/register" (Demo.quoted "{'name':'alice','password':'secret1'}")))
      Demo.fresh = Some (Returned (created 1), w1)
    /\ run (server (post "/login" (Demo.quoted "{'name':'alice','password':'wrong'}"))) w1
       = Some (Returned (sendJson 401 (failure "Invalid credentials")), w1)
    /\ run (server (post "/login" (Demo.quoted "{'name':'alice','password':'secret1'}")))
         w1 = Some (Returned (logged_in 1), w1).
Proof.
  apply (scenario_alice (Demo.quoted "{'name':'alice','password':'secret1'}")
           (Demo.quoted "{'name':'alice','password':'wrong'}") Demo.fresh);
    reflexivity.
Defined.

(** *** C7 *)

(** The theorem of C7, one request for each of its four cases. *)
Lemma register_validation_witness :
  run (POST_register (Demo.request "POST" "/register" "{'password':'secret1'}")) Demo.fresh
    = Some (Returned (sendJson 400 (failure "Name and password required")), Demo.fresh)
  /\ run (POST_register (Demo.request "POST" "/register" "{'name':'alice','password':'abc'}"))
       Demo.fresh
     = Some (Returned (sendJson 400 (failure "Password must be at least 6 characters")),
             Demo.fresh)
  /\ run (POST_register
            (Demo.request "POST" "/register" "{'name':'alice','password':'another'}"))
       Demo.with_alice
     = Some (Returned (sendJson 409 (failure "Username already exists")), Demo.with_alice)
  /\ exists (w1 : World) (t1 : Table),
       run (POST_register
              (Demo.request "POST" "/register" "{'name':'alice','password':'secret1'}"))
         Demo.fresh = Some (Returned (created 1), w1)
       /\ user_table (db w1) = Some t1
       /\ List.length (filter (has_name "alice") (rows t1)) = 1%nat
       /\ run (POST_register
                 (Demo.request "POST" "/register" "{'name':'alice','password':'another'}"))
            w1
          = Some (Returned (sendJson 409 (failure "Username already exists")), w1).
Proof.
  split; [| split; [| split]].
  - destruct (register_validation
                (Demo.request "POST" "/register" "{'password':'secret1'}")
                (obj [("password", JStr "secret1")]) Demo.fresh)
      as [Hmissing _]; [reflexivity | reflexivity |].
    apply Hmissing. left. reflexivity.
  - destruct (register_validation
                (Demo.request "POST" "/register" "{'name':'alice','password':'abc'}")
                (obj [("name", JStr "alice"); ("password", JStr "abc")]) Demo.fresh)
      as [_ [Hshort _]]; [reflexivity | reflexivity |].
    apply (Hshort "abc"); try reflexivity.
    + discriminate.
    + simpl. lia.
  - destruct (register_validation
                (Demo.request "POST" "/register" "{'name':'alice','password':'another'}")
                (obj [("name", JStr "alice"); ("password", JStr "another")])
                Demo.with_alice)
      as [_ [_ [Htaken _]]]; [reflexivity | reflexivity |].
    apply (Htaken "alice" {| rows := [Demo.alice]; auto_increment := 2 |});
      try reflexivity.
    discriminate.
  - destruct (register_validation
                (Demo.request "POST" "/register" "{'name':'alice','password':'secret1'}")
                (obj [("name", JStr "alice"); ("password", JStr "secret1")]) Demo.fresh)
      as [_ [_ [_ Hnew]]]; [reflexivity | reflexivity |].
    destruct (Hnew "alice" "secret1" {| rows := []; auto_increment := 1 |})
      as [w1 [t1 [Hrun [Ht1 [Hone Hagain]]]]]; try reflexivity.
    + discriminate.
    + simpl. lia.
    + unfold INT_MAX. simpl. lia.
    + exists w1, t1. repeat split; try assumption.
      apply (Hagain
               (Demo.request "POST" "/register" "{'name':'alice','password':'another'}")
               (obj [("name", JStr "alice"); ("password", JStr "another")]));
        reflexivity.
Defined.

(** *** C6 *)

(** The theorem of C6 at the password 123456, for alice, who is
    registered, and for bob, who is not. *)
Lemma login_non_string_password_witness :
  run (POST_login (Demo.request "POST" "/login" "{'name':'alice','password':123456}"))
    Demo.with_alice
    = Some (Returned internal_server_error,
            print Demo.with_alice
              (Stderr "Login error:" (Error "data and hash must be strings")))
  /\ run (POST_login (Demo.request "POST" "/login" "{'name':'bob','password':123456}"))
       Demo.with_alice
     = Some (Returned (sendJson 401 (failure "Invalid credentials")), Demo.with_alice).
Proof.
  split.
  - apply (login_non_string_password
             (Demo.request "POST" "/login" "{'name':'alice','password':123456}")
             (obj [("name", JStr "alice"); ("password", JNum 123456)]) "alice"
             Demo.with_alice {| rows := [Demo.alice]; auto_increment := 2 |});
      try reflexivity; discriminate.
  - apply (login_non_string_password
             (Demo.request "POST" "/login" "{'name':'bob','password':123456}")
             (obj [("name", JStr "bob"); ("password", JNum 123456)]) "bob"
             Demo.with_alice {| rows := [Demo.alice]; auto_increment := 2 |});
      try reflexivity; discriminate.
Defined.

(** With a password that is a string the same two requests are answered
    alike. *)
Lemma login_string_password_example :
  run (server (Demo.request "POST" "/login" "{'name':'alice','password':'123456'}"))
    Demo.with_alice
    = Some (Returned (sendJson 401 (failure "Invalid credentials")), Demo.with_alice)
  /\ run (server (Demo.request "POST" "/login" "{'name':'bob','password':'123456'}"))
       Demo.with_alice
     = Some (Returned (sendJson 401 (failure "Invalid credentials")), Demo.with_alice).
Proof. split; reflexivity. Qed.

(** *** C3 *)

(** Two registrations of alice in flight: both run their duplicate check
    before either inserts.  The first is answered 201, the second 500. *)
Lemma two_registrations_interleaved :
  exists w : World,
    interleave [0; 1; 0; 0; 1; 1]%nat
      [POST_register
         (Demo.request "POST" "/register" "{'name':'alice','password':'secret1'}");
       POST_register
         (Demo.request "POST" "/register" "{'name':'alice','password':'another'}")]
      Demo.fresh
    = Some ([Resolve (created 1); Resolve internal_server_error], w)
    /\ console w = [Stderr "Register error:" (MysqlError "ER_DUP_ENTRY")]
    /\ option_map rows (user_table (db w))
       = Some [{| u_id := 1; u_name := "alice"; u_password := "$sss$secret1";
                  u_email := None; u_created_at := 1700000000 |}].
Proof. eexists. repeat split; reflexivity. Qed.

(** The theorem of C3 at the second of those two requests: its check runs
    on the empty table, its INSERT after alice's row is there. *)
Lemma register_lost_race_witness :
  exists (hashed inserting : Async Response),
    step (POST_register
            (Demo.request "POST" "/register" "{'name':'alice','password':'another'}"))
      Demo.fresh = Some (hashed, Demo.fresh)
    /\ step hashed Demo.with_alice = Some (inserting, draw Demo.with_alice)
    /\ pool_execute INSERT_INTO_user
         [JStr "alice"; JStr (bcrypt_hashpw "another" 12 (entropy Demo.with_alice));
          js_or (get_prop (obj [("name", JStr "alice"); ("password", JStr "another")])
                   "email") JNull]
         (db (draw Demo.with_alice))
       = Some (Rejected (MysqlError "ER_DUP_ENTRY"),
               with_table (db (draw Demo.with_alice))
                 {| rows := [Demo.alice]; auto_increment := 2 + 1 |})
    /\ run inserting (draw Demo.with_alice)
       = Some (Returned internal_server_error,
               print (set_db (draw Demo.with_alice)
                        (with_table (db (draw Demo.with_alice))
                           {| rows := [Demo.alice]; auto_increment := 2 + 1 |}))
                 (Stderr "Register error:" (MysqlError "ER_DUP_ENTRY"))).
Proof.
  apply (register_lost_race
           (Demo.request "POST" "/register" "{'name':'alice','password':'another'}")
           (obj [("name", JStr "alice"); ("password", JStr "another")])
           "alice" "another" Demo.fresh Demo.with_alice (draw Demo.with_alice)
           {| rows := []; auto_increment := 1 |}
           {| rows := [Demo.alice]; auto_increment := 2 |});
    try reflexivity; try discriminate; simpl; lia.
Defined.

(** *** C5 *)

(** A path nobody registered, under GET and under PATCH, and the
    preflight of any path. *)
Lemma unknown_route_example :
  run (server {| method := "GET"; pathname := "/nope"; incoming := Ended "" |}) Demo.fresh
    = Some (Returned (sendResponse 200 (JStr landing_html) "text/html"), Demo.fresh)
  /\ run (server {| method := "PATCH"; pathname := "/user"; incoming := Ended "" |})
       Demo.fresh
     = Some (Returned (sendResponse 200 (JStr landing_html) "text/html"), Demo.fresh)
  /\ run (server {| method := "OPTIONS"; pathname := "/user"; incoming := Ended "" |})
       Demo.fresh
     = Some (Returned (sendResponse 200 (JStr "") "text/plain"), Demo.fresh).
Proof. repeat split; reflexivity. Qed.

(* ================================================================== *)
(** ** The further properties at concrete inputs *)

Lemma with_alice_ok : db_ok (db Demo.with_alice).
Proof.
  intros t Ht. inversion Ht. subst. unfold table_ok. simpl.
  split; [lia |]. split; [constructor; [intros [] | constructor] |].
  split; [split; [intros v [] | exact I] |].
  intros u [<- | []]. unfold row_ok. simpl. repeat split; try lia. discriminate.
Qed.


(** X2 at a delete of an id no row has. *)
Lemma every_answer_is_well_formed_witness :
  cors (sendJson 404 (failure "User not found"))
  /\ answer_shape (sendJson 404 (failure "User not found")).
Proof.
  apply (every_answer_is_well_formed
           (Demo.request "DELETE" "/user" "{'id':7}") Demo.with_alice Demo.with_alice).
  reflexivity.
Defined.

(** X3 at a login of alice with a number for a password, which ends in
    the [catch] block. *)
Lemma reading_handlers_never_write_witness :
  db (print Demo.with_alice
        (Stderr "Login error:" (Error "data and hash must be strings")))
    = db Demo.with_alice
  /\ entropy (print Demo.with_alice
                (Stderr "Login error:" (Error "data and hash must be strings")))
     = entropy Demo.with_alice
  /\ listening (print Demo.with_alice
                  (Stderr "Login error:" (Error "data and hash must be strings")))
     = listening Demo.with_alice.
Proof.
  apply (reading_handlers_never_write POST_login
           (Demo.request "POST" "/login" "{'name':'alice','password':123456}")
           Demo.with_alice _ (Returned internal_server_error)).
  - left. reflexivity.
  - reflexivity.
Defined.



(** X6 at alice's id. *)
Lemma delete_twice_witness :
  exists w1 : World,
    run (DELETE_user (Demo.request "DELETE" "/user" "{'id':1}")) Demo.with_alice
      = Some (Returned deleted, w1)
    /\ run (DELETE_user (Demo.request "DELETE" "/user" "{'id':1}")) w1
       = Some (Returned not_found, w1).
Proof.
  apply (delete_twice (Demo.request "DELETE" "/user" "{'id':1}")
           (Demo.request "DELETE" "/user" "{'id':1}")
           (obj [("id", JNum 1)]) (obj [("id", JNum 1)]) 1 Demo.with_alice
           {| rows := [Demo.alice]; auto_increment := 2 |});
    try reflexivity. discriminate.
Defined.

(** X7 at alice's id. *)
Lemma update_twice_witness :
  exists w1 : World,
    run (PUT_user (Demo.request "PUT" "/user" "{'id':1,'email':'a@b.c'}")) Demo.with_alice
      = Some (Returned updated, w1)
    /\ run (PUT_user (Demo.request "PUT" "/user" "{'id':1,'email':'a@b.c'}")) w1
       = Some (Returned updated, w1).
Proof.
  apply (update_twice (Demo.request "PUT" "/user" "{'id':1,'email':'a@b.c'}")
           (Demo.request "PUT" "/user" "{'id':1,'email':'a@b.c'}")
           (obj [("id", JNum 1); ("email", JStr "a@b.c")])
           (obj [("id", JNum 1); ("email", JStr "a@b.c")]) 1 "a@b.c" Demo.with_alice
           {| rows := [Demo.alice]; auto_increment := 2 |});
    try reflexivity; discriminate.
Defined.

(** X8 with alice in the table. *)
Lemma list_shows_rows_witness :
  exists users : list JsVal,
    run (GET_users (Demo.request "GET" "/users" "")) Demo.with_alice
      = Some (Returned (sendJson 200 (obj [("success", JBool true);
                                           ("users", JArr users)])), Demo.with_alice)
    /\ List.length users = 1%nat
    /\ forall (i : nat) (u : User),
         nth_error [Demo.alice] i = Some u ->
         exists row,
           nth_error users i = Some row
           /\ get_prop row "id" = JNum (u_id u)
           /\ get_prop row "name" = JStr (u_name u)
           /\ get_prop row "email" = nullable (u_email u)
           /\ get_prop row "created_at" = JDate (u_created_at u)
           /\ get_prop row "password" = JUndefined.
Proof.
  apply (list_shows_rows_without_passwords (Demo.request "GET" "/users" "")
           Demo.with_alice {| rows := [Demo.alice]; auto_increment := 2 |});
    reflexivity.
Defined.

(** X9 at alice's id. *)
Lemma update_then_list_witness :
  exists (w1 : World) (users : list JsVal),
    run (PUT_user (Demo.request "PUT" "/user" "{'id':1,'email':'a@b.c'}")) Demo.with_alice
      = Some (Returned updated, w1)
    /\ run (GET_users (Demo.request "GET" "/users" "")) w1
       = Some (Returned (sendJson 200 (obj [("success", JBool true);
                                            ("users", JArr users)])), w1)
    /\ forall (i : nat) (u : User),
         nth_error [Demo.alice] i = Some u ->
         nth_error users i
         = Some (if u_id u =? 1 then row_listed (set_email "a@b.c" u) else row_listed u)
         /\ (u_id u = 1 ->
             get_prop (row_listed (set_email "a@b.c" u)) "email" = JStr "a@b.c").
Proof.
  apply (update_then_list (Demo.request "PUT" "/user" "{'id':1,'email':'a@b.c'}")
           (Demo.request "GET" "/users" "")
           (obj [("id", JNum 1); ("email", JStr "a@b.c")]) 1 "a@b.c" Demo.with_alice
           {| rows := [Demo.alice]; auto_increment := 2 |});
    try reflexivity; discriminate.
Defined.

(** X10 at a registration of bob with an email. *)
Lemma register_appends_one_row_witness :
  exists w' : World,
    run (POST_register
           (Demo.request "POST" "/register"
              "{'name':'bob','password':'hunter22','email':'bob@b.c'}"))
      Demo.with_alice = Some (Returned (created 2), w')
    /\ user_table (db w')
       = Some {| rows := [Demo.alice]
                         ++ [{| u_id := 2;
                                u_name := "bob";
                                u_password := bcrypt_hashpw "hunter22" 12 4;
                                u_email := Some "bob@b.c";
                                u_created_at := 1700000000 |}];
                 auto_increment := 2 + 1 |}
    /\ entropy w' = N.succ 4
    /\ console w' = [].
Proof.
  apply (register_appends_one_row
           (Demo.request "POST" "/register"
              "{'name':'bob','password':'hunter22','email':'bob@b.c'}")
           (obj [("name", JStr "bob"); ("password", JStr "hunter22");
                 ("email", JStr "bob@b.c")])
           "bob" "hunter22" Demo.with_alice
           {| rows := [Demo.alice]; auto_increment := 2 |});
    try reflexivity; try discriminate; simpl; lia.
Defined.

(** X11 at bob. *)
Lemma register_then_login_witness :
  exists w' : World,
    run (POST_register
           (Demo.request "POST" "/register" "{'name':'bob','password':'hunter22'}"))
      Demo.with_alice = Some (Returned (created 2), w')
    /\ run (POST_login
              (Demo.request "POST" "/login" "{'name':'bob','password':'hunter22'}")) w'
       = Some (Returned (logged_in 2), w').
Proof.
  apply (register_then_login
           (Demo.request "POST" "/register" "{'name':'bob','password':'hunter22'}")
           (Demo.request "POST" "/login" "{'name':'bob','password':'hunter22'}")
           (obj [("name", JStr "bob"); ("password", JStr "hunter22")])
           (obj [("name", JStr "bob"); ("password", JStr "hunter22")])
           "bob" "hunter22" Demo.with_alice
           {| rows := [Demo.alice]; auto_increment := 2 |});
    try reflexivity; try discriminate; simpl; lia.
Defined.

(** X12: alice is deleted, bob registers and gets id 2, not 1. *)
Lemma deleted_id_is_not_reused_witness :
  exists (w1 w2 : World),
    run (DELETE_user (Demo.request "DELETE" "/user" "{'id':1}")) Demo.with_alice
      = Some (Returned deleted, w1)
    /\ run (POST_register
              (Demo.request "POST" "/register" "{'name':'bob','password':'hunter22'}"))
         w1 = Some (Returned (created 2), w2)
    /\ 1 < 2
    /\ forall u, In u [Demo.alice] -> u_id u < 2.
Proof.
  apply (deleted_id_is_not_reused
           (Demo.request "DELETE" "/user" "{'id':1}")
           (Demo.request "POST" "/register" "{'name':'bob','password':'hunter22'}")
           (obj [("id", JNum 1)])
           (obj [("name", JStr "bob"); ("password", JStr "hunter22")])
           1 "bob" "hunter22" Demo.with_alice
           {| rows := [Demo.alice]; auto_increment := 2 |});
    try reflexivity; try discriminate; try (simpl; lia).
  apply with_alice_ok. reflexivity.
Defined.

(** X13 at alice: her password, a wrong one, and a name nobody has. *)
Lemma login_with_string_password_witness :
  run (POST_login (Demo.request "POST" "/login" "{'name':'bob','password':'secret1'}"))
    Demo.with_alice
    = Some (Returned (sendJson 401 (failure "Invalid credentials")), Demo.with_alice)
  /\ run (POST_login (Demo.request "POST" "/login" "{'name':'alice','password':'wrong'}"))
       Demo.with_alice
     = Some (Returned (sendJson 401 (failure "Invalid credentials")), Demo.with_alice)
  /\ run (POST_login (Demo.request "POST" "/login" "{'name':'alice','password':'secret1'}"))
       Demo.with_alice
     = Some (Returned (logged_in 1), Demo.with_alice).
Proof.
  split; [| split].
  - destruct (login_with_string_password
                (Demo.request "POST" "/login" "{'name':'bob','password':'secret1'}")
                (obj [("name", JStr "bob"); ("password", JStr "secret1")])
                "bob" "secret1" Demo.with_alice
                {| rows := [Demo.alice]; auto_increment := 2 |})
      as [Hunknown _];
      [reflexivity | reflexivity | reflexivity | discriminate | reflexivity
       | discriminate | reflexivity | reflexivity |].
    apply Hunknown. reflexivity.
  - destruct (login_with_string_password
                (Demo.request "POST" "/login" "{'name':'alice','password':'wrong'}")
                (obj [("name", JStr "alice"); ("password", JStr "wrong")])
                "alice" "wrong" Demo.with_alice
                {| rows := [Demo.alice]; auto_increment := 2 |})
      as [_ [Hwrong _]];
      [reflexivity | reflexivity | reflexivity | discriminate | reflexivity
       | discriminate | reflexivity | reflexivity |].
    apply (Hwrong Demo.alice []); reflexivity.
  - destruct (login_with_string_password
                (Demo.request "POST" "/login" "{'name':'alice','password':'secret1'}")
                (obj [("name", JStr "alice"); ("password", JStr "secret1")])
                "alice" "secret1" Demo.with_alice
                {| rows := [Demo.alice]; auto_increment := 2 |})
      as [_ [_ Hright]];
      [reflexivity | reflexivity | reflexivity | discriminate | reflexivity
       | discriminate | reflexivity | reflexivity |].
    apply (Hright Demo.alice []); reflexivity.
Defined.

(** X14 at the password 1234567. *)
Lemma register_non_string_password_witness :
  exists message : string,
    run (POST_register
           (Demo.request "POST" "/register" "{'name':'bob','password':1234567}"))
      Demo.with_alice
    = Some (Returned internal_server_error,
            print Demo.with_alice (Stderr "Register error:" (Error message))).
Proof.
  apply (register_non_string_password
           (Demo.request "POST" "/register" "{'name':'bob','password':1234567}")
           (obj [("name", JStr "bob"); ("password", JNum 1234567)])
           "bob" Demo.with_alice {| rows := [Demo.alice]; auto_increment := 2 |});
    try reflexivity; discriminate.
Defined.


(** X16 at the body [[1,2]]. *)
Lemma fieldless_body_witness :
  run (POST_register (Demo.request "POST" "/register" "[1,2]")) Demo.fresh
    = Some (Returned (sendJson 400 (failure "Name and password required")), Demo.fresh)
  /\ run (POST_login (Demo.request "POST" "/register" "[1,2]")) Demo.fresh
     = Some (Returned (sendJson 400 (failure "Name and password required")), Demo.fresh)
  /\ run (DELETE_user (Demo.request "POST" "/register" "[1,2]")) Demo.fresh
     = Some (Returned (sendJson 400 (failure "User ID required")), Demo.fresh)
  /\ run (PUT_user (Demo.request "POST" "/register" "[1,2]")) Demo.fresh
     = Some (Returned (sendJson 400 (failure "ID and new email required")), Demo.fresh).
Proof.
  apply (fieldless_body_answers_400 (Demo.request "POST" "/register" "[1,2]")
           (JArr [JNum 1; JNum 2]) Demo.fresh); try reflexivity. discriminate.
Defined.

(** X17 at a stream that fails with 'aborted'. *)
Lemma stream_error_witness :
  run (POST_register
         {| method := "POST"; pathname := "/register";
            incoming := Errored (Error "aborted") |}) Demo.fresh
    = Some (Returned internal_server_error,
            print Demo.fresh (Stderr "Register error:" (Error "aborted")))
  /\ run (POST_login
            {| method := "POST"; pathname := "/register";
               incoming := Errored (Error "aborted") |}) Demo.fresh
     = Some (Returned internal_server_error,
             print Demo.fresh (Stderr "Login error:" (Error "aborted")))
  /\ run (DELETE_user
            {| method := "POST"; pathname := "/register";
               incoming := Errored (Error "aborted") |}) Demo.fresh
     = Some (Returned internal_server_error,
             print Demo.fresh (Stderr "Delete error:" (Error "aborted")))
  /\ run (PUT_user
            {| method := "POST"; pathname := "/register";
               incoming := Errored (Error "aborted") |}) Demo.fresh
     = Some (Returned internal_server_error,
             print Demo.fresh (Stderr "Update error:" (Error "aborted"))).
Proof.
  apply (stream_error_answers_500
           {| method := "POST"; pathname := "/register";
              incoming := Errored (Error "aborted") |} (Error "aborted") Demo.fresh).
  reflexivity.
Defined.

(** X18 at the store that has no table: the list request. *)
Lemma store_failure_witness :
  exists e : JsError,
    run (GET_users (Demo.request "GET" "/users" "")) Demo.no_schema
    = Some (Returned internal_server_error,
            print Demo.no_schema (Stderr "Fetch users error:" e)).
Proof.
  destruct (store_failure_answers_500 (Demo.request "GET" "/users" "") Demo.no_schema)
    as [e [Hlist _]].
  - right. reflexivity.
  - exists e. exact Hlist.
Defined.

(** X19 at the preflight of /register. *)
Lemma preflight_witness :
  run (server {| method := "OPTIONS"; pathname := "/register"; incoming := Ended "" |})
    Demo.fresh
    = Some (Returned (sendResponse 200 (JStr "") "text/plain"), Demo.fresh).
Proof.
  apply (preflight_on_any_path
           {| method := "OPTIONS"; pathname := "/register"; incoming := Ended "" |}
           Demo.fresh).
  reflexivity.
Defined.
